(** * Air Quality Explorer: the dashboard script [website.py]

    A shallow embedding of the data handling of the script: the loader,
    the column check, the two filter pipelines, the aggregates, the
    category encoder, and the order in which the script renders its
    components.  The table library is rendered by the operations the
    script calls, with the behaviour their documentation gives them. *)

From Stdlib Require Import ZArith List String Ascii Lia OrderedTypeEx Permutation.
From stdpp Require Import base list strings gmap numbers sorting.

Local Open Scope string_scope.
Local Open Scope Z_scope.

(** ** Cells, rows, frames *)

(** A cell of a table: a number, a text, or the missing marker.  The
    numbers of the data set are integer index values; coordinates are only
    tested for being missing and compared for equality, so integers stand
    for them as well. *)
Inductive cell : Type :=
  | Num (z : Z)
  | Str (s : string)
  | NaN.

#[global] Instance cell_eq_dec : EqDecision cell.
Proof. solve_decision. Defined.

Definition cell_encode (c : cell) : Z + string + unit :=
  match c with Num z => inl (inl z) | Str s => inl (inr s) | NaN => inr tt end.
Definition cell_decode (x : Z + string + unit) : cell :=
  match x with inl (inl z) => Num z | inl (inr s) => Str s | inr _ => NaN end.

#[global] Instance cell_countable : Countable cell.
Proof. apply (inj_countable' cell_encode cell_decode). by intros []. Defined.

(** A row keeps the index label it got when the file was read; the parser
    gives every row one cell per column. *)
Record row : Type := Row { label : nat; cells : list cell }.

#[global] Instance row_eq_dec : EqDecision row.
Proof. solve_decision. Defined.

Record DataFrame : Type := Frame { columns : list string; rows : list row }.

(** [pd.DataFrame()] *)
Definition empty_frame : DataFrame := Frame [] [].

(** ** Exceptions *)

Inductive exn : Type :=
  | KeyError (keys : list string)
  | TypeError
  | ValueError
  | NameError (name : string)
  | AttributeError
  | StreamlitAPIException
  | StopException.

Inductive result (A : Type) : Type :=
  | Ok (a : A)
  | Raise (e : exn).
Arguments Ok {A} a.
Arguments Raise {A} e.

#[global] Instance result_ret : MRet result := @Ok.
#[global] Instance result_bind : MBind result :=
  λ A B f m, match m with Ok a => f a | Raise e => Raise e end.

Fixpoint traverse {A B : Type} (f : A → result B) (l : list A) : result (list B) :=
  match l with
  | [] => Ok []
  | x :: t => y ← f x; ys ← traverse f t; mret (y :: ys)
  end.

(** ** Column access *)

(** Position of a column name.  The parser hands out distinct names, so
    the first position is the position. *)
Fixpoint col_index (c : string) (cols : list string) : option nat :=
  match cols with
  | [] => None
  | h :: t => if decide (h = c) then Some 0%nat else S <$> col_index c t
  end.

Definition cell_at (i : nat) (r : row) : cell := default NaN (cells r !! i).

(** Position of column [c]; [df[c]] raises [KeyError] when there is none. *)
Definition column_of (df : DataFrame) (c : string) : result nat :=
  match col_index c (columns df) with
  | Some i => Ok i
  | None => Raise (KeyError [c])
  end.

(** [df[c]] *)
Definition series (df : DataFrame) (c : string) : result (list cell) :=
  i ← column_of df c; mret (cell_at i <$> rows df).

(** After the headers are trimmed two columns can bear one name. *)
Definition duplicated (c : string) (cols : list string) : bool :=
  bool_decide (1 < length (List.filter (λ h, bool_decide (h = c)) cols))%nat.

(** [df[c]] where the script goes on as with one column: for a name that
    two columns bear [df[c]] is a table, and the operation that follows
    refuses it with [e]. *)
Definition one_series (df : DataFrame) (c : string) (e : exn) : result (list cell) :=
  s ← series df c;
  if duplicated c (columns df) then Raise e else Ok s.

(** [df[mask]] *)
Definition getitem_mask (df : DataFrame) (mask : list bool) : DataFrame :=
  Frame (columns df) (fst <$> List.filter snd (zip (rows df) mask)).

(** [s >= k], [s <= k]: a missing value compares false, a text cannot be
    compared with a number. *)
Definition ge_scalar (k : Z) (c : cell) : result bool :=
  match c with
  | Num z => Ok (k <=? z)
  | NaN => Ok false
  | Str _ => Raise TypeError
  end.

Definition le_scalar (k : Z) (c : cell) : result bool :=
  match c with
  | Num z => Ok (z <=? k)
  | NaN => Ok false
  | Str _ => Raise TypeError
  end.

(** [a & b] *)
Definition mask_and (a b : list bool) : list bool := zip_with andb a b.

(** [s.isin(values)]: the missing marker matches the missing marker. *)
Definition isin (s : list cell) (values : list cell) : list bool :=
  (λ c, bool_decide (c ∈ values)) <$> s.

(** ** The loader *)

(** [df.drop_duplicates()]: the first of several rows with the same cells
    stays, whatever their labels. *)
Fixpoint drop_dups (seen : list (list cell)) (rs : list row) : list row :=
  match rs with
  | [] => []
  | r :: t =>
      if bool_decide (cells r ∈ seen) then drop_dups seen t
      else r :: drop_dups (cells r :: seen) t
  end.

Definition drop_duplicates (df : DataFrame) : DataFrame :=
  Frame (columns df) (drop_dups [] (rows df)).

Definition notna (c : cell) : bool :=
  match c with NaN => false | _ => true end.

(** [df.dropna(subset=cols)]: [KeyError] with the names that are no columns. *)
Definition dropna (df : DataFrame) (subset : list string) : result DataFrame :=
  match List.filter (λ c, bool_decide (c ∉ columns df)) subset with
  | [] =>
      idx ← traverse (column_of df) subset;
      mret (Frame (columns df)
              (List.filter (λ r, forallb (λ i, notna (cell_at i r)) idx) (rows df)))
  | absent => Raise (KeyError absent)
  end.

(** A text is the sequence of the bytes of its UTF-8 encoding.  The white
    space that [str.strip] removes, by the length of its encoding: one
    byte for U+0009 to U+000D and U+001C to U+0020; two bytes for U+0085
    and U+00A0; three bytes for U+1680, U+2000 to U+200A, U+2028, U+2029,
    U+202F, U+205F and U+3000. *)
Definition is_space (a : ascii) : bool :=
  let n := nat_of_ascii a in
  ((9 <=? n) && (n <=? 13) || (28 <=? n) && (n <=? 32))%nat.

Definition is_space2 (a b : ascii) : bool :=
  let m := nat_of_ascii a in
  let n := nat_of_ascii b in
  ((m =? 194) && ((n =? 133) || (n =? 160)))%nat.

Definition is_space3 (a b c : ascii) : bool :=
  let l := nat_of_ascii a in
  let m := nat_of_ascii b in
  let n := nat_of_ascii c in
  ((l =? 225) && (m =? 154) && (n =? 128)
   || (l =? 226) && (m =? 128)
      && ((128 <=? n) && (n <=? 138) || (n =? 168) || (n =? 169) || (n =? 175))
   || (l =? 226) && (m =? 129) && (n =? 159)
   || (l =? 227) && (m =? 128) && (n =? 128))%nat.

(** Removing the white space in front; [p2] and [p3] recognise the
    encodings of two and three bytes in the order in which the bytes come. *)
Fixpoint strip_front (p2 : ascii → ascii → bool) (p3 : ascii → ascii → ascii → bool)
    (s : list ascii) : list ascii :=
  match s with
  | [] => []
  | a :: t =>
      if is_space a then strip_front p2 p3 t
      else
        match t with
        | [] => s
        | b :: t' =>
            if p2 a b then strip_front p2 p3 t'
            else
              match t' with
              | [] => s
              | c :: t'' => if p3 a b c then strip_front p2 p3 t'' else s
              end
        end
  end.

Definition lstrip : list ascii → list ascii := strip_front is_space2 is_space3.

(** The white space at the end, on the reversed bytes. *)
Definition rstrip_reversed : list ascii → list ascii :=
  strip_front (λ a b, is_space2 b a) (λ a b c, is_space3 c b a).

(** [s.strip()] *)
Definition strip (s : string) : string :=
  string_of_list_ascii
    (rev (rstrip_reversed (rev (lstrip (list_ascii_of_string s))))).

(** [df.columns = df.columns.str.strip()] *)
Definition strip_columns (df : DataFrame) : DataFrame :=
  Frame (strip <$> columns df) (rows df).

(** ** The filter pipelines *)

(** [filter_data(df, pollutant, low, high)] *)
Definition filter_data (df : DataFrame) (pollutant : string) (low high : Z)
  : result DataFrame :=
  s1 ← series df pollutant;
  m1 ← traverse (ge_scalar low) s1;
  s2 ← series df pollutant;
  m2 ← traverse (le_scalar high) s2;
  mret (getitem_mask df (mask_and m1 m2)).

(** [df[df[c].isin(values)]] *)
Definition filter_isin (df : DataFrame) (c : string) (values : list cell)
  : result DataFrame :=
  s ← series df c; mret (getitem_mask df (isin s values)).

(** The table view, lines 89-90: the range filter, then the country
    filter, which is applied whatever [countries] holds. *)
Definition filtered (data : DataFrame) (pollutant_col : string) (min_val max_val : Z)
    (countries : list cell) : result DataFrame :=
  f ← filter_data data pollutant_col min_val max_val;
  filter_isin f "Country" countries.

(** Truth value of a list in a condition. *)
Definition truthy {A : Type} (l : list A) : bool :=
  match l with [] => false | _ => true end.

(** The map view, lines 150-156: each filter is applied only when its
    selection is not empty. *)
Definition filtered_data (data : DataFrame) (selected_cities selected_categories : list cell)
  : result DataFrame :=
  fd ← (if truthy selected_cities then filter_isin data "City" selected_cities
        else mret data);
  if truthy selected_categories then filter_isin fd "AQI Category" selected_categories
  else mret fd.

(** ** Aggregates *)

Definition is_text (c : cell) : bool :=
  match c with Str _ => true | _ => false end.

Definition num_of (c : cell) : option Z :=
  match c with Num z => Some z | _ => None end.

(** The numbers of a column, missing values skipped; a column that holds
    text is refused by the numeric reductions. *)
Definition numbers (s : list cell) : result (list Z) :=
  if existsb is_text s then Raise TypeError else Ok (omap num_of s).

(** The mean of a column is a double that the table library computes from
    the numbers of the column.  Its rounding is not modelled: the value is
    kept as the numbers it is the mean of, in their order. *)
Inductive average : Type := MeanOf (numbers : list Z).

#[global] Instance average_eq_dec : EqDecision average.
Proof. solve_decision. Defined.

Definition mean_of (l : list Z) : average := MeanOf l.

(** [s.mean()]: [None] is the missing result of an empty reduction. *)
Definition col_mean (s : list cell) : result (option average) :=
  l ← numbers s;
  mret (match l with [] => None | _ => Some (mean_of l) end).

Definition min_list (l : list Z) : cell :=
  match l with [] => NaN | x :: t => Num (foldr Z.min x t) end.
Definition max_list (l : list Z) : cell :=
  match l with [] => NaN | x :: t => Num (foldr Z.max x t) end.

Definition text_of (c : cell) : option string :=
  match c with Str s => Some s | _ => None end.
Definition least (a b : string) : string := if String.leb a b then a else b.
Definition greatest (a b : string) : string := if String.leb a b then b else a.

(** [s.min()], [s.max()], missing cells skipped: over the numbers when the
    column holds no text; a column whose present cells are all texts has a
    least and a greatest text; texts mixed with numbers cannot be
    compared. *)
Definition col_extreme (pick_num : list Z → cell) (pick_text : string → string → string)
    (s : list cell) : result cell :=
  if existsb is_text s then
    if forallb is_text (List.filter notna s) then
      match omap text_of s with
      | [] => Ok NaN
      | x :: t => Ok (Str (foldr pick_text x t))
      end
    else Raise TypeError
  else Ok (pick_num (omap num_of s)).

Definition col_min : list cell → result cell := col_extreme min_list least.
Definition col_max : list cell → result cell := col_extreme max_list greatest.

(** [get_stats(df, col)] *)
Definition get_stats (df : DataFrame) (col : string)
  : result (option average * cell * cell) :=
  s1 ← series df col; mean ← col_mean s1;
  s2 ← series df col; lo ← col_min s2;
  s3 ← series df col; hi ← col_max s3;
  mret (mean, lo, hi).

(** Stable insertion sort: [x] comes from before every element of [l], and
    goes in front of the first one it may precede. *)
Fixpoint insert_by {A : Type} (before : A → A → bool) (x : A) (l : list A) : list A :=
  match l with
  | [] => [x]
  | y :: t => if before x y then x :: l else y :: insert_by before x t
  end.

Definition stable_sort {A : Type} (before : A → A → bool) (l : list A) : list A :=
  foldr (insert_by before) [] l.

(** Descending order of numeric cells, the missing ones last ([nlargest]
    never sorts a text; texts are placed between the two). *)
Definition desc (a b : cell) : bool :=
  match a, b with
  | Num x, Num y => y <=? x
  | Num _, _ => true
  | Str _, Num _ => false
  | Str _, _ => true
  | NaN, NaN => true
  | NaN, _ => false
  end.

(** [df.nlargest(n, col)]: the first [n] rows in descending order of
    [col], which among equal values are the first occurrences in their
    original order; a text column is refused. *)
Definition nlargest (n : nat) (df : DataFrame) (col : string) : result DataFrame :=
  i ← column_of df col;
  if existsb (λ r, is_text (cell_at i r)) (rows df) then Raise TypeError
  else
    mret (Frame (columns df)
            (take n (stable_sort (λ r1 r2, desc (cell_at i r1) (cell_at i r2)) (rows df)))).

(** Order of group keys: numbers, then texts by code, then missing. *)
Definition cell_compare (a b : cell) : comparison :=
  match a, b with
  | Num x, Num y => Z.compare x y
  | Num _, _ => Lt
  | Str _, Num _ => Gt
  | Str s, Str t => String.compare s t
  | Str _, NaN => Lt
  | NaN, NaN => Eq
  | NaN, _ => Gt
  end.

Definition cell_leb (a b : cell) : bool :=
  match cell_compare a b with Gt => false | _ => true end.

(** First occurrences, in order of appearance: [s.unique()]. *)
Fixpoint unique (l : list cell) : list cell :=
  match l with
  | [] => []
  | c :: t => c :: List.filter (λ d, bool_decide (d ≠ c)) (unique t)
  end.

(** The rows of one group. *)
Definition group_rows (g : nat) (k : cell) (rs : list row) : list row :=
  List.filter (λ r, bool_decide (cell_at g r = k)) rs.

(** [df.pivot_table(index=index, values=values, aggfunc='mean').reset_index()]:
    rows whose key is missing form no group, the groups come sorted by
    key, the mean skips missing values, and a group whose mean is missing
    is left out of the result. *)
Definition group_mean (v g : nat) (rs : list row) (k : cell)
  : result (cell * option average) :=
  m ← col_mean (cell_at v <$> group_rows g k rs); mret (k, m).

Definition present_mean (km : cell * option average) : option (cell * average) :=
  match km.2 with Some m => Some (km.1, m) | None => None end.

Definition pivot_table (df : DataFrame) (index values : string)
  : result (list (cell * average)) :=
  v ← column_of df values;
  g ← column_of df index;
  let keys := stable_sort cell_leb (unique (List.filter notna (cell_at g <$> rows df))) in
  means ← traverse (group_mean v g (rows df)) keys;
  mret (omap present_mean (means : list (cell * option average))).

(** ** Category encoder and counts *)

Definition category_map : gmap string Z :=
  list_to_map [("Good", 1); ("Moderate", 2); ("Unhealthy for Sensitive Groups", 3);
               ("Unhealthy", 4); ("Very Unhealthy", 5); ("Hazardous", 6)].

(** [s.map(category_map)] on one value: what the table lacks becomes
    the missing marker. *)
Definition encode (c : cell) : cell :=
  match c with
  | Str s => match category_map !! s with Some n => Num n | None => NaN end
  | _ => NaN
  end.

(** One turn of the loop over [iterrows()]: [KeyError] from the row when
    the column is absent. *)
Definition count_row (df : DataFrame) (acc : result (gmap cell nat)) (r : row)
  : result (gmap cell nat) :=
  counts ← acc;
  i ← column_of df "AQI Category";
  let cat := cell_at i r in
  mret (<[cat := (default 0%nat (counts !! cat) + 1)%nat]> counts).

Definition cat_counts (df : DataFrame) : result (gmap cell nat) :=
  foldl (count_row df) (Ok ∅) (rows df).

(** ** The script *)

Inductive pollutant_label : Type :=
  | OverallAQI | CarbonMonoxide | Ozone | NitrogenDioxide | PM25.

Definition pollutant_dict (l : pollutant_label) : string :=
  match l with
  | OverallAQI => "AQI Value"
  | CarbonMonoxide => "CO AQI Value"
  | Ozone => "Ozone AQI Value"
  | NitrogenDioxide => "NO2 AQI Value"
  | PM25 => "PM2.5 AQI Value"
  end.

Inductive message : Type :=
  | ErrorLoadingData (e : string)
  | MissingExpectedColumns (missing : list string).

(** The value of a metric box: a mean, a number, or the missing value. *)
Inductive metric : Type :=
  | Mean (a : average)
  | Number (z : Z)
  | NotANumber.

(** What the script puts on the page, one constructor per rendering call. *)
Inductive event : Type :=
  | StError (m : message)
  | StSidebarHeader
  | StSidebarMarkdown
  | StTitle
  | StSelection (pollutant : pollutant_label) (lo hi : Z) (countries : list string)
  | StDataframe (df : DataFrame)
  | StMetric (name : string) (value : metric)
  | StBarChart (cities values : list cell)
  | StHistogram (values : list cell)
  | StSubheader (text : string)
  | StPivot (table : list (cell * average))
  | StLevelCodes (table : list (cell * cell * cell))
  | StCategoryCounts (counts : gmap cell nat)
  | StPlotlyChart (df : DataFrame)
  | StDownloadButton (df : DataFrame)
  | StAqiColumns (cols : list string).

(** A script step: it appends to the page and returns or raises. *)
Definition script (A : Type) : Type := list event → list event * result A.

#[global] Instance script_ret : MRet script := λ A a log, (log, Ok a).
#[global] Instance script_bind : MBind script :=
  λ A B f m log,
    match m log with
    | (log', Ok a) => f a log'
    | (log', Raise e) => (log', Raise e)
    end.

Definition emit (e : event) : script unit := λ log, ((log ++ [e])%list, Ok tt).
Definition lift {A : Type} (r : result A) : script A := λ log, (log, r).

(** [st.stop()] *)
Definition st_stop : script unit := lift (Raise StopException).

(** Names bound at module level: the imports, the two functions, and every
    assigned name of the file. *)
Definition module_names : list string :=
  ["st"; "pd"; "pdk"; "sns"; "px"; "load_data"; "data"; "required_cols"; "missing";
   "pollutant_dict"; "pollutant_label"; "pollutant_col"; "min_val"; "max_val";
   "countries"; "filter_data"; "filtered"; "get_stats"; "mean_val"; "min_val_stat";
   "max_val_stat"; "top10"; "fig"; "ax"; "dist_fig"; "dist_ax"; "pivot"; "df_copy";
   "category_map"; "cat_counts"; "idx"; "row"; "cat"; "city_options";
   "selected_cities"; "aqi_categories"; "selected_categories"; "filtered_data";
   "aqi_columns"].

(** Evaluating a global name. *)
Definition lookup_name (n : string) : script unit :=
  if bool_decide (n ∈ module_names) then mret tt else lift (Raise (NameError n)).

Definition required_cols : list string :=
  ["AQI Value"; "CO AQI Value"; "Ozone AQI Value"; "NO2 AQI Value"; "PM2.5 AQI Value"].

(** [[col for col in required_cols if col not in data.columns]] *)
Definition missing_cols (data : DataFrame) : list string :=
  List.filter (λ col, bool_decide (col ∉ columns data)) required_cols.

(** Lines 42-45. *)
Definition validate (data : DataFrame) : script unit :=
  let missing := missing_cols data in
  if truthy missing then
    _ ← emit (StError (MissingExpectedColumns missing)); st_stop
  else mret tt.

(** [int(x)] of a reduction result. *)
Definition py_int (c : cell) : result Z :=
  match c with Num z => Ok z | _ => Raise ValueError end.

(** [', '.join(countries)] needs texts. *)
Definition join_texts (l : list cell) : result (list string) :=
  traverse (λ c, match c with Str s => Ok s | _ => Raise TypeError end) l.

Definition metric_of (c : cell) : metric :=
  match c with Num z => Number z | _ => NotANumber end.

Definition mean_metric (m : option average) : metric :=
  match m with Some a => Mean a | None => NotANumber end.

(** [sorted(s.dropna().unique())]: numbers and texts do not compare. *)
Definition sorted_present (s : list cell) : result (list cell) :=
  let u := unique (List.filter notna s) in
  if existsb is_text u && negb (forallb is_text u) then Raise TypeError
  else Ok (stable_sort cell_leb u).

(** ['AQI' in c] *)
Definition contains_AQI (c : string) : bool :=
  match String.index 0 "AQI" c with Some _ => true | None => false end.

Section Script.

(** The file system and the parser: the text of the failure, or the
    parsed table. *)
Variable read_csv : string → string + DataFrame.

(** The page controls: what the visitor has chosen, given what the script
    offers (the bounds of the slider, the options of a selector); a
    control may refuse its arguments, as the country selector does when
    one of its six default countries is not among the options. *)
Record widgets : Type := Widgets {
  selectbox : pollutant_label;
  slider : Z → Z → result (Z * Z);
  multiselect_countries : list cell → result (list cell);
  multiselect_cities : list cell → result (list cell);
  multiselect_categories : list cell → result (list cell)
}.

Variable ui : widgets.

(** [load_data(filepath)], lines 24-35.  The function is called once, so
    the cache of its decorator plays no part. *)
Definition load_data (filepath : string) : script DataFrame :=
  match read_csv filepath with
  | inl e => _ ← emit (StError (ErrorLoadingData e)); mret empty_frame
  | inr df =>
      let df := drop_duplicates df in
      df ← lift (dropna df ["lat"; "lng"]);
      mret (strip_columns df)
  end.

(** Lines 66-90: the sidebar controls and the table view. *)
Definition controls (data : DataFrame)
  : script (pollutant_label * Z * Z * list cell * DataFrame) :=
  let pollutant_label := selectbox ui in
  let pollutant_col := pollutant_dict pollutant_label in
  s ← lift (one_series data pollutant_col TypeError);
  lo ← lift (c ← col_min s; py_int c);
  hi ← lift (c ← col_max s; py_int c);
  range ← lift (slider ui lo hi);
  country ← lift (one_series data "Country" AttributeError);
  countries ← lift (multiselect_countries ui (unique country));
  view ← lift (filtered data pollutant_col range.1 range.2 countries);
  mret (pollutant_label, range.1, range.2, countries, view).

(** Lines 92-103: title, table and the three metrics. *)
Definition table_and_metrics (pollutant_label : pollutant_label) (min_val max_val : Z)
    (countries : list cell) (view : DataFrame) : script unit :=
  _ ← emit StTitle;
  names ← lift (join_texts countries);
  _ ← emit (StSelection pollutant_label min_val max_val names);
  _ ← emit (StDataframe view);
  stats ← lift (get_stats view (pollutant_dict pollutant_label));
  _ ← emit (StMetric "Average AQI" (mean_metric stats.1.1));
  _ ← emit (StMetric "Minimum AQI" (metric_of stats.1.2));
  emit (StMetric "Maximum AQI" (metric_of stats.2)).

(** Lines 106-113: the top-10 bar chart. *)
Definition bar_chart (pollutant_col : string) (view : DataFrame) : script unit :=
  top10 ← lift (nlargest 10 view pollutant_col);
  _ ← lookup_name "plt";
  city ← lift (series top10 "City");
  values ← lift (series top10 pollutant_col);
  _ ← lookup_name "plt";
  emit (StBarChart city values).

(** Lines 116-182: histogram, pivot table, level codes, category counts,
    map view, export and the list of index columns. *)
Definition later_components (data : DataFrame) (pollutant_col : string)
    (view : DataFrame) : script unit :=
  _ ← lookup_name "plt";
  values ← lift (series data pollutant_col);
  _ ← emit (StHistogram values);
  pivot ← lift (pivot_table view "Country" pollutant_col);
  _ ← emit (StSubheader "Average AQI by Country");
  _ ← emit (StPivot pivot);
  cat ← lift (series view "AQI Category");
  let levels := encode <$> cat in
  _ ← emit (StSubheader "AQI Level Codes");
  code_city ← lift (series view "City");
  _ ← emit (StLevelCodes (zip (zip code_city cat) levels));
  counts ← lift (cat_counts view);
  _ ← emit (StCategoryCounts counts);
  city ← lift (series data "City");
  city_options ← lift (sorted_present city);
  selected_cities ← lift (multiselect_cities ui city_options);
  category ← lift (series data "AQI Category");
  aqi_categories ← lift (sorted_present category);
  selected_categories ← lift (multiselect_categories ui aqi_categories);
  map_view ← lift (filtered_data data selected_cities selected_categories);
  _ ← emit (StPlotlyChart map_view);
  _ ← emit (StDownloadButton map_view);
  emit (StAqiColumns (List.filter contains_AQI (columns data))).

(** Lines 66-182: what runs once the sidebar texts are out. *)
Definition page (data : DataFrame) : script unit :=
  c ← controls data;
  let '(pollutant_label, min_val, max_val, countries, view) := c in
  _ ← table_and_metrics pollutant_label min_val max_val countries view;
  _ ← bar_chart (pollutant_dict pollutant_label) view;
  later_components data (pollutant_dict pollutant_label) view.

(** The module body, top to bottom. *)
Definition main : script unit :=
  data ← load_data "air_quality_index.csv";
  _ ← validate data;
  _ ← emit StSidebarHeader;
  _ ← emit StSidebarMarkdown;
  _ ← emit StSidebarMarkdown;
  page data.

Definition run : list event * result unit := main [].

End Script.

(** ** A small data set *)

Module Sample.

Definition header : list string :=
  ["City"; "Country"; "lat"; "lng"; "AQI Value"; "CO AQI Value"; "Ozone AQI Value";
   "NO2 AQI Value"; "PM2.5 AQI Value"; "AQI Category"].

Definition record (i : nat) (city country : string) (aqi : Z) (category : string) : row :=
  Row i [Str city; Str country; Num 10; Num 20; Num aqi; Num 1; Num 2; Num 3; Num 4;
         Str category].

(** The three rows of the example: A and B in US, C in FR. *)
Definition rows3 : list row :=
  [record 0 "A" "US" 50 "Good"; record 1 "B" "US" 150 "Unhealthy";
   record 2 "C" "FR" 80 "Moderate"].

Definition data : DataFrame := Frame header rows3.

(** A file with a header line and no record. *)
Definition header_only : DataFrame := Frame header [].

(** A file whose header has a blank after each comma. *)
Definition padded : DataFrame :=
  Frame ["City"; " Country"; " lat"; " lng"; " AQI Value"; " CO AQI Value";
         " Ozone AQI Value"; " NO2 AQI Value"; " PM2.5 AQI Value"; " AQI Category"]
        rows3.

(** A file without the category column. *)
Definition no_category : DataFrame :=
  Frame ["City"; "Country"; "lat"; "lng"; "AQI Value"; "CO AQI Value"; "Ozone AQI Value";
         "NO2 AQI Value"; "PM2.5 AQI Value"]
        [Row 0 [Str "A"; Str "US"; Num 10; Num 20; Num 50; Num 1; Num 2; Num 3; Num 4]].


(** A visitor who keeps the whole range and selects what [countries]
    gives, no city and no category. *)
Definition visitor (countries : list cell) : widgets :=
  Widgets OverallAQI (λ lo hi, Ok (lo, hi)) (λ _, Ok countries) (λ _, Ok []) (λ _, Ok []).

End Sample.

(** * Vocabulary of the properties *)

(** The row tests the two pipelines apply. *)
Definition in_range (low high : Z) (c : cell) : bool :=
  match c with Num z => (low <=? z) && (z <=? high) | _ => false end.

Definition selected (values : list cell) (c : cell) : bool := bool_decide (c ∈ values).

(** A column is numeric when it holds no text. *)
Definition numeric_col (i : nat) (rs : list row) : Prop :=
  ∀ r, r ∈ rs → is_text (cell_at i r) = false.

(** A selection as the map view tests it: no constraint when empty. *)
Definition chosen (values : list cell) (c : cell) : bool :=
  negb (truthy values) || selected values c.

(** The claim's reading of the filter engine, following the words of the
    specification: one test made of all five parameters. *)
Definition spec_all_predicates (i c ci ca : nat) (low high : Z)
    (countries cities categories : list cell) (r : row) : bool :=
  in_range low high (cell_at i r) && chosen countries (cell_at c r)
  && chosen cities (cell_at ci r) && chosen categories (cell_at ca r).

(** The filters of each view, applied in the other order. *)
Definition filtered_country_first (data : DataFrame) (pollutant_col : string)
    (min_val max_val : Z) (countries : list cell) : result DataFrame :=
  f ← filter_isin data "Country" countries;
  filter_data f pollutant_col min_val max_val.

Definition filtered_data_category_first (data : DataFrame)
    (selected_cities selected_categories : list cell) : result DataFrame :=
  fd ← (if truthy selected_categories
        then filter_isin data "AQI Category" selected_categories else mret data);
  if truthy selected_cities then filter_isin fd "City" selected_cities else mret fd.

(** The bytes start with a white space. *)
Definition blank_front (p2 : ascii → ascii → bool) (p3 : ascii → ascii → ascii → bool)
    (l : list ascii) : bool :=
  match l with
  | [] => false
  | a :: t =>
      is_space a
      || match t with
         | [] => false
         | b :: t' => p2 a b || match t' with [] => false | c :: _ => p3 a b c end
         end
  end.

(** A text is trimmed when neither its first nor its last character is a
    white space. *)
Definition trimmed (s : string) : Prop :=
  blank_front is_space2 is_space3 (list_ascii_of_string s) = false
  ∧ blank_front (λ a b, is_space2 b a) (λ a b c, is_space3 c b a)
      (rev (list_ascii_of_string s)) = false.

(** [emits P m]: [m] only appends to the page, and only events that
    satisfy [P].  [raises m]: [m] always ends in an exception. *)
Definition emits {A : Type} (P : event → Prop) (m : script A) : Prop :=
  ∀ log, ∃ more, (m log).1 = (log ++ more)%list ∧ Forall P more.

Definition raises {A : Type} (m : script A) : Prop :=
  ∀ log, ∃ e, (m log).2 = Raise e.

(** The components that come before the charts. *)
Definition early (e : event) : Prop :=
  match e with
  | StError _ | StSidebarHeader | StSidebarMarkdown | StTitle | StSelection _ _ _ _
  | StDataframe _ | StMetric _ _ => True
  | _ => False
  end.

(** The columns the specification lists as required, in its words. *)
Definition spec_required_cols : list string :=
  ["City"; "Country"; "lat"; "lng"; "AQI Value"; "CO AQI Value"; "Ozone AQI Value";
   "NO2 AQI Value"; "PM2.5 AQI Value"; "AQI Category"].


(** The numbers of column [i], missing values skipped. *)
Definition column_values (i : nat) (rs : list row) : list Z :=
  omap num_of (cell_at i <$> rs).

(** A column is a text column when each cell is a text or missing. *)
Definition text_col (i : nat) (rs : list row) : Prop :=
  ∀ r, r ∈ rs → is_text (cell_at i r) = true ∨ cell_at i r = NaN.

(** * Properties *)

(** A decidable statement about concrete data, settled by evaluation. *)
Ltac by_evaluation := apply (bool_decide_unpack _); vm_compute; exact I.

(** ** Masks and row selection *)

Lemma traverse_total {A B : Type} (f : A → result B) (g : A → B) (l : list A) :
  (∀ x, x ∈ l → f x = Ok (g x)) → traverse f l = Ok (g <$> l).
Proof.
  induction l as [|x t IH]; intros Hf; [done|].
  cbn. rewrite (Hf x) by left. cbn.
  rewrite IH; [done|]. intros y Hy. apply Hf. by right.
Qed.

Lemma select_by_mask (p : row → bool) (rs : list row) :
  fst <$> List.filter snd (zip rs (p <$> rs)) = List.filter p rs.
Proof.
  induction rs as [|r t IH]; [done|].
  cbn. destruct (p r); cbn; by rewrite IH.
Qed.

Lemma mask_and_pointwise {A : Type} (f g : A → bool) (l : list A) :
  mask_and (f <$> l) (g <$> l) = (λ x, f x && g x) <$> l.
Proof. induction l as [|x t IH]; [done|]. cbn. f_equal. exact IH. Qed.

Lemma filter_ext_in {A : Type} (p q : A → bool) (l : list A) :
  (∀ x, x ∈ l → p x = q x) → List.filter p l = List.filter q l.
Proof.
  induction l as [|x t IH]; intros H; [done|].
  cbn. rewrite (H x) by left. rewrite IH; [done|].
  intros y Hy. apply H. by right.
Qed.

Lemma filter_filter {A : Type} (p q : A → bool) (l : list A) :
  List.filter p (List.filter q l) = List.filter (λ x, q x && p x) l.
Proof.
  induction l as [|x t IH]; [done|].
  cbn. destruct (q x); cbn; [destruct (p x)|]; by rewrite IH.
Qed.

Lemma elem_of_filter_bool {A : Type} (p : A → bool) (l : list A) (x : A) :
  x ∈ List.filter p l ↔ x ∈ l ∧ p x = true.
Proof. rewrite !list_elem_of_In. apply filter_In. Qed.

Lemma sublist_filter_bool {A : Type} (p : A → bool) (l : list A) :
  List.filter p l `sublist_of` l.
Proof.
  induction l as [|x t IH]; [done|]. cbn.
  destruct (p x); [by apply sublist_skip | by apply sublist_cons].
Qed.

Lemma series_at (df : DataFrame) (c : string) (i : nat) :
  col_index c (columns df) = Some i → series df c = Ok (cell_at i <$> rows df).
Proof. intros H. unfold series, column_of. by rewrite H. Qed.

Lemma filter_data_rows (df : DataFrame) (pollutant : string) (low high : Z) (i : nat) :
  col_index pollutant (columns df) = Some i →
  numeric_col i (rows df) →
  filter_data df pollutant low high
  = Ok (Frame (columns df) (List.filter (λ r, in_range low high (cell_at i r)) (rows df))).
Proof.
  intros Hi Hnum. unfold filter_data. rewrite (series_at _ _ _ Hi). cbn.
  rewrite (traverse_total (ge_scalar low)
             (λ c, match c with Num z => low <=? z | _ => false end)).
  2:{ intros c [r [-> Hr]]%list_elem_of_fmap. specialize (Hnum r Hr).
      by destruct (cell_at i r). }
  cbn.
  rewrite (traverse_total (le_scalar high)
             (λ c, match c with Num z => z <=? high | _ => false end)).
  2:{ intros c [r [-> Hr]]%list_elem_of_fmap. specialize (Hnum r Hr).
      by destruct (cell_at i r). }
  cbn. unfold getitem_mask. do 2 f_equal.
  rewrite mask_and_pointwise, <- list_fmap_compose, select_by_mask.
  apply filter_ext_in. intros r _. cbn. by destruct (cell_at i r).
Qed.

Lemma filter_isin_rows (df : DataFrame) (c : string) (values : list cell) (i : nat) :
  col_index c (columns df) = Some i →
  filter_isin df c values
  = Ok (Frame (columns df) (List.filter (λ r, selected values (cell_at i r)) (rows df))).
Proof.
  intros Hi. unfold filter_isin. rewrite (series_at _ _ _ Hi). cbn.
  unfold getitem_mask, isin. do 2 f_equal.
  by rewrite <- list_fmap_compose, select_by_mask.
Qed.

Lemma numeric_col_filter (i : nat) (p : row → bool) (rs : list row) :
  numeric_col i rs → numeric_col i (List.filter p rs).
Proof. intros H r [Hr _]%elem_of_filter_bool. by apply H. Qed.

(** C3: on a numeric pollutant column [filter_data] returns, every row it
    returns holds a value [v] with [low <= v <= high], both ends included,
    and every row of the input with such a value is returned (the rows
    keep their order).  This holds for all bounds, [low <= high] or not. *)
Theorem filter_data_inclusive_range (df : DataFrame) (pollutant : string)
    (low high : Z) (i : nat) :
  col_index pollutant (columns df) = Some i →
  numeric_col i (rows df) →
  ∃ out, filter_data df pollutant low high = Ok out
    ∧ columns out = columns df
    ∧ rows out `sublist_of` rows df
    ∧ (∀ r, r ∈ rows out → ∃ v, cell_at i r = Num v ∧ low ≤ v ≤ high)
    ∧ (∀ r v, r ∈ rows df → cell_at i r = Num v → low ≤ v ≤ high → r ∈ rows out).
Proof.
  intros Hi Hnum. eexists. split; [by apply filter_data_rows|]. cbn.
  split; [done|]. split.
  - apply sublist_filter_bool.
  - split.
    + intros r [_ Hr]%elem_of_filter_bool. unfold in_range in Hr.
      destruct (cell_at i r) as [v| |]; try done. exists v. split; [done|]. lia.
    + intros r v Hr Hv Hb. apply elem_of_filter_bool. split; [done|].
      rewrite Hv. cbn. apply andb_true_iff. lia.
Qed.

Lemma filter_data_inclusive_range_witness :
  ∃ out, filter_data Sample.data "AQI Value" 60 200 = Ok out
    ∧ columns out = columns Sample.data
    ∧ rows out `sublist_of` rows Sample.data
    ∧ (∀ r, r ∈ rows out → ∃ v, cell_at 4 r = Num v ∧ 60 ≤ v ≤ 200)
    ∧ (∀ r v, r ∈ rows Sample.data → cell_at 4 r = Num v → 60 ≤ v ≤ 200 → r ∈ rows out).
Proof.
  apply (filter_data_inclusive_range Sample.data "AQI Value" 60 200 4).
  - reflexivity.
  - intros r Hr. cbn in Hr. set_unfold. by destruct Hr as [->|[->|[->|[]]]].
Defined.

(** ** Empty selections *)

Lemma filter_none {A : Type} (l : list A) : List.filter (λ _, false) l = [].
Proof. by induction l. Qed.

Lemma filter_all {A : Type} (p : A → bool) (l : list A) :
  (∀ x, x ∈ l → p x = true) → List.filter p l = l.
Proof.
  induction l as [|x t IH]; intros H; [done|].
  cbn. rewrite (H x) by left. f_equal. apply IH. intros y Hy. apply H. by right.
Qed.

(** The map view passes everything through when both selections are empty. *)
Lemma filtered_data_empty_selections (data : DataFrame) :
  filtered_data data [] [] = Ok data.
Proof. reflexivity. Qed.

(** An empty category selection excludes no row of the map view. *)
Lemma filtered_data_empty_categories (data : DataFrame) (cities : list cell) :
  filtered_data data cities []
  = if truthy cities then filter_isin data "City" cities else Ok data.
Proof. unfold filtered_data. destruct (truthy cities); [|done]. by destruct (filter_isin _ _ _). Qed.

(** The table view has no such guard: with no country selected, no row is
    left, whatever the range filter kept. *)
Lemma filtered_empty_countries (data : DataFrame) (pollutant_col : string)
    (low high : Z) (i c : nat) :
  col_index pollutant_col (columns data) = Some i →
  numeric_col i (rows data) →
  col_index "Country" (columns data) = Some c →
  filtered data pollutant_col low high [] = Ok (Frame (columns data) []).
Proof.
  intros Hi Hnum Hc. unfold filtered. rewrite (filter_data_rows _ _ _ _ _ Hi Hnum). cbn.
  rewrite (filter_isin_rows _ _ _ c) by done. cbn. do 2 f_equal.
  rewrite (filter_ext_in _ (λ _, false)); [apply filter_none|].
  intros r _. unfold selected. apply bool_decide_eq_false. apply not_elem_of_nil.
Qed.

(** C1, evaluated on the three-row example with the range [60, 200]: the
    range filter keeps B and C; with no country selected the table view is
    empty, where the claim asks for B and C; the map view, with no city and
    no category selected, is the whole data set. *)
Theorem empty_country_selection_empties_the_table :
  filter_data Sample.data "AQI Value" 60 200
    = Ok (Frame Sample.header
            [Sample.record 1 "B" "US" 150 "Unhealthy"; Sample.record 2 "C" "FR" 80 "Moderate"])
  ∧ filtered Sample.data "AQI Value" 60 200 [] = Ok (Frame Sample.header [])
  ∧ filtered_data Sample.data [] [] = Ok Sample.data.
Proof. repeat split; reflexivity. Qed.

(** ** The two views and their predicates *)

Lemma filter_comm {A : Type} (p q : A → bool) (l : list A) :
  List.filter (λ x, q x && p x) l = List.filter (λ x, p x && q x) l.
Proof. apply filter_ext_in. intros x _. apply andb_comm. Qed.

Lemma filtered_rows (data : DataFrame) (pollutant_col : string) (low high : Z)
    (countries : list cell) (i c : nat) :
  col_index pollutant_col (columns data) = Some i →
  numeric_col i (rows data) →
  col_index "Country" (columns data) = Some c →
  filtered data pollutant_col low high countries
  = Ok (Frame (columns data)
          (List.filter (λ r, in_range low high (cell_at i r) && selected countries (cell_at c r))
             (rows data))).
Proof.
  intros Hi Hnum Hc. unfold filtered. rewrite (filter_data_rows _ _ _ _ _ Hi Hnum). cbn.
  rewrite (filter_isin_rows _ _ _ c) by done. cbn. by rewrite filter_filter.
Qed.

Lemma filtered_data_rows (data : DataFrame) (cities categories : list cell) (ci ca : nat) :
  col_index "City" (columns data) = Some ci →
  col_index "AQI Category" (columns data) = Some ca →
  filtered_data data cities categories
  = Ok (Frame (columns data)
          (List.filter (λ r, chosen cities (cell_at ci r) && chosen categories (cell_at ca r))
             (rows data))).
Proof.
  intros Hci Hca. unfold filtered_data, chosen. destruct data as [cols rs]. cbn in *.
  destruct (truthy cities), (truthy categories); cbn.
  - rewrite (filter_isin_rows _ _ _ ci) by done. cbn.
    rewrite (filter_isin_rows _ _ _ ca) by done. cbn. by rewrite filter_filter.
  - rewrite (filter_isin_rows _ _ _ ci) by done. cbn. do 2 f_equal.
    apply filter_ext_in. intros r _. by rewrite andb_true_r.
  - rewrite (filter_isin_rows _ _ _ ca) by done. done.
  - do 2 f_equal. symmetry. by apply filter_all.
Qed.

(** C2, as the script has it: there are two views, each filtered by its
    own parameters.  With at least one country selected, the table view
    holds exactly the rows with the pollutant value in the range and the
    country in the selection; the map view holds exactly the rows that
    pass the city test and the category test, each of which is no
    constraint when its selection is empty.  Within each view the two
    filters give the same result in either order.  (What the table view
    holds when no country is selected is left aside here.) *)
Theorem each_view_is_the_conjunction_of_its_filters (data : DataFrame)
    (pollutant_col : string) (low high : Z) (countries cities categories : list cell)
    (i c ci ca : nat) :
  col_index pollutant_col (columns data) = Some i →
  numeric_col i (rows data) →
  col_index "Country" (columns data) = Some c →
  col_index "City" (columns data) = Some ci →
  col_index "AQI Category" (columns data) = Some ca →
  countries ≠ [] →
  filtered data pollutant_col low high countries
    = Ok (Frame (columns data)
            (List.filter (λ r, in_range low high (cell_at i r) && selected countries (cell_at c r))
               (rows data)))
  ∧ filtered_country_first data pollutant_col low high countries
    = filtered data pollutant_col low high countries
  ∧ filtered_data data cities categories
    = Ok (Frame (columns data)
            (List.filter (λ r, chosen cities (cell_at ci r) && chosen categories (cell_at ca r))
               (rows data)))
  ∧ filtered_data_category_first data cities categories
    = filtered_data data cities categories.
Proof.
  intros Hi Hnum Hc Hci Hca _.
  split; [by apply filtered_rows|]. split.
  - rewrite (filtered_rows _ _ _ _ _ i c) by done.
    unfold filtered_country_first. rewrite (filter_isin_rows _ _ _ c) by done. cbn.
    rewrite (filter_data_rows _ _ _ _ i); cbn; [|done|by apply numeric_col_filter].
    by rewrite filter_filter, filter_comm.
  - split; [by apply filtered_data_rows|].
    rewrite (filtered_data_rows _ _ _ ci ca) by done.
    unfold filtered_data_category_first, chosen. destruct data as [cols rs]. cbn in *.
    destruct (truthy cities), (truthy categories); cbn.
    + rewrite (filter_isin_rows _ _ _ ca) by done. cbn.
      rewrite (filter_isin_rows _ _ _ ci) by done. cbn. by rewrite filter_filter, filter_comm.
    + rewrite (filter_isin_rows _ _ _ ci) by done. cbn. do 2 f_equal.
      apply filter_ext_in. intros r _. by rewrite andb_true_r.
    + rewrite (filter_isin_rows _ _ _ ca) by done. done.
    + do 2 f_equal. symmetry. by apply filter_all.
Qed.

Lemma sample_aqi_numeric : numeric_col 4 (rows Sample.data).
Proof. intros r Hr. cbn in Hr. set_unfold. by destruct Hr as [->|[->|[->|[]]]]. Qed.

Lemma each_view_is_the_conjunction_of_its_filters_witness :
  filtered Sample.data "AQI Value" 60 200 [Str "US"]
    = Ok (Frame (columns Sample.data)
            (List.filter (λ r, in_range 60 200 (cell_at 4 r) && selected [Str "US"] (cell_at 1 r))
               (rows Sample.data)))
  ∧ filtered_country_first Sample.data "AQI Value" 60 200 [Str "US"]
    = filtered Sample.data "AQI Value" 60 200 [Str "US"]
  ∧ filtered_data Sample.data [Str "A"] []
    = Ok (Frame (columns Sample.data)
            (List.filter (λ r, chosen [Str "A"] (cell_at 0 r) && chosen [] (cell_at 9 r))
               (rows Sample.data)))
  ∧ filtered_data_category_first Sample.data [Str "A"] []
    = filtered_data Sample.data [Str "A"] [].
Proof.
  apply (each_view_is_the_conjunction_of_its_filters
           Sample.data "AQI Value" 60 200 [Str "US"] [Str "A"] [] 4 1 0 9).
  - reflexivity.
  - exact sample_aqi_numeric.
  - reflexivity.
  - reflexivity.
  - reflexivity.
  - discriminate.
Defined.

(** C2 as stated fails on the three-row example: with the range [60, 200],
    the country US and the city A selected, no row passes all the tests
    together, yet the table view shows B and the map view shows A. *)
Lemma no_view_applies_all_five_filters :
  List.filter (spec_all_predicates 4 1 0 9 60 200 [Str "US"] [Str "A"] []) (rows Sample.data) = []
  ∧ filtered Sample.data "AQI Value" 60 200 [Str "US"]
    = Ok (Frame Sample.header [Sample.record 1 "B" "US" 150 "Unhealthy"])
  ∧ filtered_data Sample.data [Str "A"] []
    = Ok (Frame Sample.header [Sample.record 0 "A" "US" 50 "Good"]).
Proof. repeat split; reflexivity. Qed.

(** ** The loader *)

Section StripFront.
Context (p2 : ascii → ascii → bool) (p3 : ascii → ascii → ascii → bool).

Lemma strip_front_spec (n : nat) (l : list ascii) :
  (length l ≤ n)%nat →
  blank_front p2 p3 (strip_front p2 p3 l) = false
  ∧ ∃ pre, l = (pre ++ strip_front p2 p3 l)%list.
Proof.
  revert l. induction n as [|n IH]; intros l Hl.
  { destruct l; [|cbn in Hl; lia]. split; [done|by exists []]. }
  destruct l as [|a t]; [split; [done|by exists []]|]. cbn in Hl.
  cbn [strip_front]. destruct (is_space a) eqn:Ea.
  { destruct (IH t ltac:(lia)) as [H [pre Hp]]. split; [done|].
    exists (a :: pre). cbn. by rewrite <- Hp. }
  destruct t as [|b t'].
  { split; [cbn; by rewrite Ea | by exists []]. }
  cbn in Hl. destruct (p2 a b) eqn:Eb.
  { destruct (IH t' ltac:(lia)) as [H [pre Hp]]. split; [done|].
    exists (a :: b :: pre). cbn. by rewrite <- Hp. }
  destruct t' as [|c t''].
  { split; [cbn; by rewrite Ea, Eb | by exists []]. }
  cbn in Hl. destruct (p3 a b c) eqn:Ec.
  { destruct (IH t'' ltac:(lia)) as [H [pre Hp]]. split; [done|].
    exists (a :: b :: c :: pre). cbn. by rewrite <- Hp. }
  split; [cbn; by rewrite Ea, Eb, Ec | by exists []].
Qed.

Lemma strip_front_id (l : list ascii) :
  blank_front p2 p3 l = false → strip_front p2 p3 l = l.
Proof.
  destruct l as [|a t]; [done|]. cbn.
  destruct (is_space a); [done|]. destruct t as [|b t']; [done|]. cbn.
  destruct (p2 a b); [done|]. destruct t' as [|c t'']; [done|]. cbn.
  by destruct (p3 a b c).
Qed.

Lemma blank_front_app (l x : list ascii) :
  blank_front p2 p3 l = true → blank_front p2 p3 (l ++ x)%list = true.
Proof.
  destruct l as [|a t]; [done|]. cbn.
  destruct (is_space a); [done|]. destruct t as [|b t']; [done|]. cbn.
  destruct (p2 a b); [done|]. by destruct t' as [|c t''].
Qed.
End StripFront.

Lemma strip_trimmed (s : string) : trimmed (strip s).
Proof.
  unfold trimmed, strip. rewrite list_ascii_of_string_of_list_ascii, rev_involutive.
  set (m := lstrip (list_ascii_of_string s)).
  set (r := rstrip_reversed (rev m)).
  destruct (strip_front_spec is_space2 is_space3 _ (list_ascii_of_string s) (le_n _))
    as [Hm _]. fold lstrip in Hm. fold m in Hm.
  destruct (strip_front_spec (λ a b, is_space2 b a) (λ a b c, is_space3 c b a)
              _ (rev m) (le_n _)) as [Hr [pre Hpre]].
  fold rstrip_reversed in Hr, Hpre. fold r in Hr, Hpre.
  split; [|exact Hr].
  destruct (blank_front is_space2 is_space3 (rev r)) eqn:E; [|done].
  apply (blank_front_app _ _ _ (rev pre)) in E.
  rewrite <- rev_app_distr, <- Hpre, rev_involutive in E. by rewrite E in Hm.
Qed.

Lemma drop_dups_sublist (seen : list (list cell)) (rs : list row) :
  drop_dups seen rs `sublist_of` rs.
Proof.
  revert seen. induction rs as [|r t IH]; intros seen; [done|]. cbn.
  case_bool_decide; [by apply sublist_cons | by apply sublist_skip].
Qed.

Lemma drop_dups_fresh (seen : list (list cell)) (rs : list row) (r : row) :
  r ∈ drop_dups seen rs → cells r ∉ seen.
Proof.
  revert seen. induction rs as [|x t IH]; intros seen; cbn; [by intros ?%elem_of_nil|].
  case_bool_decide as Hx.
  - apply IH.
  - intros [->|Hr]%elem_of_cons; [done|].
    apply IH in Hr. intros Hin. apply Hr. by right.
Qed.

Lemma drop_dups_NoDup (seen : list (list cell)) (rs : list row) :
  NoDup (cells <$> drop_dups seen rs).
Proof.
  revert seen. induction rs as [|x t IH]; intros seen; cbn; [constructor|].
  case_bool_decide as Hx; [apply IH|].
  cbn. constructor; [|apply IH].
  intros [r [Heq Hr]]%list_elem_of_fmap. apply drop_dups_fresh in Hr.
  apply Hr. rewrite <- Heq. by left.
Qed.

Lemma drop_dups_complete (seen : list (list cell)) (rs : list row) (r : row) :
  r ∈ rs → cells r ∉ seen → ∃ r', r' ∈ drop_dups seen rs ∧ cells r' = cells r.
Proof.
  revert seen. induction rs as [|x t IH]; intros seen; [by intros ?%elem_of_nil|].
  intros [->|Hr]%elem_of_cons Hseen; cbn.
  - rewrite bool_decide_eq_false_2 by done. exists x. split; [by left|done].
  - case_bool_decide as Hx; [by apply IH|].
    destruct (decide (cells r = cells x)) as [Heq|Hne].
    + exists x. split; [by left|done].
    + destruct (IH (cells x :: seen) Hr) as [r' [Hr' Hc]].
      * intros [?|?]%elem_of_cons; done.
      * exists r'. split; [by right|done].
Qed.

Lemma drop_dups_first (seen : list (list cell)) (pre post : list row) (r : row) :
  cells r ∉ seen → cells r ∉ cells <$> pre →
  r ∈ drop_dups seen (pre ++ r :: post)%list.
Proof.
  revert seen. induction pre as [|x pre IH]; intros seen Hseen Hpre; cbn.
  - rewrite bool_decide_eq_false_2 by done. by left.
  - cbn in Hpre. apply not_elem_of_cons in Hpre as [Hx Hpre].
    case_bool_decide; [by apply IH|]. right. apply IH; [|done].
    by intros [?|?]%elem_of_cons.
Qed.

Lemma col_index_Some (c : string) (cols : list string) :
  c ∈ cols → ∃ i, col_index c cols = Some i.
Proof.
  induction cols as [|h t IH]; [by intros ?%elem_of_nil|].
  intros Hin. cbn. case_decide as Hh; [by eexists|].
  apply elem_of_cons in Hin as [->|Hin]; [done|].
  destruct (IH Hin) as [i ->]. by eexists.
Qed.

Lemma col_index_elem (c : string) (cols : list string) (i : nat) :
  col_index c cols = Some i → c ∈ cols.
Proof.
  revert i. induction cols as [|h t IH]; intros i; [done|]. cbn.
  case_decide as Hh; [subst; by left|].
  destruct (col_index c t); [|done]. intros _. right. by eapply IH.
Qed.

Lemma dropna_lat_lng (df : DataFrame) (ilat ilng : nat) :
  col_index "lat" (columns df) = Some ilat →
  col_index "lng" (columns df) = Some ilng →
  dropna df ["lat"; "lng"]
  = Ok (Frame (columns df)
          (List.filter (λ r, notna (cell_at ilat r) && notna (cell_at ilng r)) (rows df))).
Proof.
  intros Hlat Hlng. unfold dropna. cbn [List.filter].
  rewrite !bool_decide_eq_false_2.
  2:{ intros H. apply H. by eapply col_index_elem. }
  2:{ intros H. apply H. by eapply col_index_elem. }
  cbn. unfold column_of. rewrite Hlat, Hlng. cbn. do 2 f_equal.
  apply filter_ext_in. intros r _. by rewrite andb_true_r.
Qed.

(** X23: when the file cannot be parsed, the failure is shown and the
    loader returns the empty table.  When it parses into a table with
    columns named [lat] and [lng], the loader returns its rows in their
    order, of each content the first row that holds it and no other,
    without the rows that lack a coordinate, under headers trimmed of
    white space. *)
Theorem load_data_cleans_or_reports (read_csv : string → string + DataFrame)
    (filepath : string) (log : list event) :
  (∀ e, read_csv filepath = inl e →
     load_data read_csv filepath log
     = ((log ++ [StError (ErrorLoadingData e)])%list, Ok empty_frame))
  ∧ (∀ df ilat ilng, read_csv filepath = inr df →
     col_index "lat" (columns df) = Some ilat →
     col_index "lng" (columns df) = Some ilng →
     ∃ out, load_data read_csv filepath log = (log, Ok out)
       ∧ columns out = strip <$> columns df
       ∧ Forall trimmed (columns out)
       ∧ rows out `sublist_of` rows df
       ∧ NoDup (cells <$> rows out)
       ∧ (∀ r, r ∈ rows out → cell_at ilat r ≠ NaN ∧ cell_at ilng r ≠ NaN)
       ∧ (∀ r, r ∈ rows df → cell_at ilat r ≠ NaN → cell_at ilng r ≠ NaN →
            ∃ r', r' ∈ rows out ∧ cells r' = cells r)
       ∧ (∀ pre r post, rows df = (pre ++ r :: post)%list →
            cells r ∉ cells <$> pre →
            cell_at ilat r ≠ NaN → cell_at ilng r ≠ NaN → r ∈ rows out)).
Proof.
  split.
  - intros e He. unfold load_data. by rewrite He.
  - intros df ilat ilng Hdf Hlat Hlng. unfold load_data. rewrite Hdf.
    rewrite (dropna_lat_lng (drop_duplicates df) ilat ilng) by done.
    eexists. split; [reflexivity|]. cbn.
    split; [done|]. split.
    { apply Forall_fmap, Forall_forall. intros c _. apply strip_trimmed. }
    split.
    { etrans; [apply sublist_filter_bool | apply drop_dups_sublist]. }
    split.
    { apply (sublist_NoDup _ (cells <$> drop_dups [] (rows df)));
        [apply drop_dups_NoDup | apply fmap_sublist, sublist_filter_bool]. }
    split.
    + intros r [_ Hr]%elem_of_filter_bool. apply andb_true_iff in Hr as [H1 H2].
      split; intros E; rewrite E in *; done.
    + split.
      * intros r Hr H1 H2.
        destruct (drop_dups_complete [] (rows df) r Hr) as [r' [Hr' Hc]];
          [apply not_elem_of_nil|].
        exists r'. split; [|done]. apply elem_of_filter_bool. split; [done|].
        unfold cell_at in *. rewrite Hc.
        destruct (default NaN (cells r !! ilat)), (default NaN (cells r !! ilng)); done.
      * intros pre r post Hsplit Hpre H1 H2.
        apply elem_of_filter_bool. split.
        -- rewrite Hsplit. apply drop_dups_first; [apply not_elem_of_nil|done].
        -- by destruct (cell_at ilat r), (cell_at ilng r).
Qed.

Lemma load_data_cleans_or_reports_witness :
  load_data (λ _, inl "No such file") "air_quality_index.csv" []
    = ([StError (ErrorLoadingData "No such file")], Ok empty_frame)
  ∧ ∃ out, load_data (λ _, inr Sample.data) "air_quality_index.csv" [] = ([], Ok out)
       ∧ columns out = strip <$> columns Sample.data
       ∧ Forall trimmed (columns out)
       ∧ rows out `sublist_of` rows Sample.data
       ∧ NoDup (cells <$> rows out)
       ∧ (∀ r, r ∈ rows out → cell_at 2 r ≠ NaN ∧ cell_at 3 r ≠ NaN)
       ∧ (∀ r, r ∈ rows Sample.data → cell_at 2 r ≠ NaN → cell_at 3 r ≠ NaN →
            ∃ r', r' ∈ rows out ∧ cells r' = cells r)
       ∧ (∀ pre r post, rows Sample.data = (pre ++ r :: post)%list →
            cells r ∉ cells <$> pre →
            cell_at 2 r ≠ NaN → cell_at 3 r ≠ NaN → r ∈ rows out).
Proof.
  split.
  - apply (proj1 (load_data_cleans_or_reports (λ _, inl "No such file")
                    "air_quality_index.csv" []) "No such file").
    reflexivity.
  - apply (proj2 (load_data_cleans_or_reports (λ _, inr Sample.data)
                    "air_quality_index.csv" []) Sample.data 2%nat 3%nat);
      reflexivity.
Defined.

(** C5, evaluated on a file whose header has a blank after each comma:
    the table parses with columns named [ lat] and [ lng]; the claim asks
    for its rows under trimmed headers, and the loader raises [KeyError],
    because it drops the rows without coordinates by column name before
    it trims the headers. *)
Lemma load_data_raises_on_padded_header :
  load_data (λ _, inr Sample.padded) "air_quality_index.csv" []
  = ([], Raise (KeyError ["lat"; "lng"])).
Proof. reflexivity. Qed.

(** ** What a step puts on the page *)

Section Steps.
Context {A B : Type} (P : event → Prop).

Lemma emits_ret (a : A) : emits P (mret a : script A).
Proof. intros log. exists []. by rewrite app_nil_r. Qed.

Lemma emits_lift (r : result A) : emits P (lift r).
Proof. intros log. exists []. by rewrite app_nil_r. Qed.

Lemma emits_emit (e : event) : P e → emits P (emit e).
Proof. intros He log. exists [e]. split; [done|]. by constructor. Qed.

Lemma emits_bind (m : script A) (k : A → script B) :
  emits P m → (∀ a, emits P (k a)) → emits P (m ≫= k).
Proof.
  intros Hm Hk log. destruct (Hm log) as [more1 [E1 F1]].
  unfold mbind, script_bind. destruct (m log) as [log' [a|e]]; cbn in *; subst log'.
  - destruct (Hk a (log ++ more1)%list) as [more2 [E2 F2]].
    exists (more1 ++ more2)%list. rewrite E2, app_assoc.
    split; [done|]. by apply Forall_app.
  - by exists more1.
Qed.

Lemma emits_bind_raises (m : script A) (k : A → script B) :
  emits P m → raises m → emits P (m ≫= k).
Proof.
  intros Hm Hr log. destruct (Hm log) as [more [E F]]. destruct (Hr log) as [e He].
  unfold mbind, script_bind. destruct (m log) as [log' [a|e']]; cbn in *; [done|].
  by exists more.
Qed.

Lemma raises_bind_l (m : script A) (k : A → script B) :
  raises m → raises (m ≫= k).
Proof.
  intros Hr log. destruct (Hr log) as [e He].
  unfold mbind, script_bind. destruct (m log) as [log' [a|e']]; cbn in *; [done|].
  by exists e'.
Qed.

Lemma raises_bind_r (m : script A) (k : A → script B) :
  (∀ a, raises (k a)) → raises (m ≫= k).
Proof.
  intros Hk log. unfold mbind, script_bind.
  destruct (m log) as [log' [a|e']]; cbn; [apply Hk | by exists e'].
Qed.
End Steps.

Ltac emits_steps :=
  repeat first
    [ apply emits_ret
    | apply emits_lift
    | apply emits_emit; done
    | apply emits_bind; [|intros ?] ].

Lemma plt_unbound : lookup_name "plt" = lift (Raise (NameError "plt")).
Proof. reflexivity. Qed.

Lemma bar_chart_raises (pollutant_col : string) (view : DataFrame) (log : list event) :
  ∃ e, bar_chart pollutant_col view log = (log, Raise e).
Proof.
  unfold bar_chart. unfold mbind at 1. unfold script_bind, lift.
  destruct (nlargest 10 view pollutant_col) as [top10|e]; [|by exists e].
  exists (NameError "plt"). reflexivity.
Qed.

Lemma bar_chart_plt (pollutant_col : string) (view top10 : DataFrame) (log : list event) :
  nlargest 10 view pollutant_col = Ok top10 →
  bar_chart pollutant_col view log = (log, Raise (NameError "plt")).
Proof.
  intros H. unfold bar_chart. unfold mbind at 1. unfold script_bind, lift.
  rewrite H. reflexivity.
Qed.

Lemma load_data_emits (read_csv : string → string + DataFrame) (filepath : string) :
  emits early (load_data read_csv filepath).
Proof. unfold load_data. destruct (read_csv filepath); emits_steps. Qed.

Lemma validate_emits (data : DataFrame) : emits early (validate data).
Proof. unfold validate. destruct (truthy _); unfold st_stop; emits_steps. Qed.

Lemma controls_emits (P : event → Prop) (ui : widgets) (data : DataFrame) :
  emits P (controls ui data).
Proof. unfold controls. emits_steps. Qed.

Lemma table_and_metrics_emits (pl : pollutant_label) (lo hi : Z) (countries : list cell)
    (view : DataFrame) :
  emits early (table_and_metrics pl lo hi countries view).
Proof. unfold table_and_metrics. emits_steps. Qed.

Lemma page_emits (ui : widgets) (data : DataFrame) : emits early (page ui data).
Proof.
  unfold page. apply emits_bind; [apply controls_emits|].
  intros [[[[pl lo] hi] countries] view].
  apply emits_bind; [apply table_and_metrics_emits|]. intros _.
  apply emits_bind_raises.
  - intros log. destruct (bar_chart_raises (pollutant_dict pl) view log) as [e ->].
    exists []. by rewrite app_nil_r.
  - intros log. destruct (bar_chart_raises (pollutant_dict pl) view log) as [e ->].
    by exists e.
Qed.

Lemma page_raises (ui : widgets) (data : DataFrame) : raises (page ui data).
Proof.
  unfold page. apply raises_bind_r. intros [[[[pl lo] hi] countries] view].
  apply raises_bind_r. intros _. apply raises_bind_l.
  intros log. destruct (bar_chart_raises (pollutant_dict pl) view log) as [e ->].
  by exists e.
Qed.

Lemma main_emits (read_csv : string → string + DataFrame) (ui : widgets) :
  emits early (main read_csv ui).
Proof.
  unfold main. apply emits_bind; [apply load_data_emits|]. intros data.
  apply emits_bind; [apply validate_emits|]. intros _.
  do 3 (apply emits_bind; [by apply emits_emit|intros _]). apply page_emits.
Qed.

Lemma main_raises (read_csv : string → string + DataFrame) (ui : widgets) :
  raises (main read_csv ui).
Proof.
  unfold main. do 5 (apply raises_bind_r; intros ?). apply page_raises.
Qed.

(** ** Running the script *)

Lemma bind_ok {A B : Type} (m : script A) (k : A → script B) (log log' : list event) (a : A) :
  m log = (log', Ok a) → (m ≫= k) log = k a log'.
Proof. intros H. unfold mbind, script_bind. by rewrite H. Qed.

Lemma bind_raise {A B : Type} (m : script A) (k : A → script B) (log log' : list event)
    (e : exn) :
  m log = (log', Raise e) → (m ≫= k) log = (log', Raise e).
Proof. intros H. unfold mbind, script_bind. by rewrite H. Qed.

Lemma bind_emit {B : Type} (e : event) (k : unit → script B) (log : list event) :
  (emit e ≫= k) log = k tt (log ++ [e])%list.
Proof. reflexivity. Qed.

Lemma filter_nil_inv {A : Type} (p : A → bool) (l : list A) (x : A) :
  List.filter p l = [] → x ∈ l → p x = false.
Proof.
  intros H Hx. destruct (p x) eqn:E; [|done].
  assert (x ∈ List.filter p l) as Hin by (by apply elem_of_filter_bool).
  rewrite H in Hin. by apply elem_of_nil in Hin.
Qed.

Lemma elem_of_missing_cols (data : DataFrame) (c : string) :
  c ∈ missing_cols data ↔ c ∈ required_cols ∧ c ∉ columns data.
Proof.
  unfold missing_cols. rewrite elem_of_filter_bool.
  by rewrite bool_decide_eq_true.
Qed.

Lemma validate_missing (data : DataFrame) (log : list event) :
  missing_cols data ≠ [] →
  validate data log
  = ((log ++ [StError (MissingExpectedColumns (missing_cols data))])%list, Raise StopException).
Proof. intros H. unfold validate. by destruct (missing_cols data). Qed.

Lemma validate_pass (data : DataFrame) (log : list event) :
  missing_cols data = [] → validate data log = (log, Ok tt).
Proof. intros H. unfold validate. by rewrite H. Qed.

Lemma validated_pollutant (data : DataFrame) (pl : pollutant_label) :
  missing_cols data = [] → ∃ i, col_index (pollutant_dict pl) (columns data) = Some i.
Proof.
  intros H. apply col_index_Some.
  assert (pollutant_dict pl ∈ required_cols) as Hin.
  { apply list_elem_of_In. destruct pl; cbn; tauto. }
  pose proof (filter_nil_inv _ _ _ H Hin) as Hf.
  apply bool_decide_eq_false in Hf. by apply dec_stable.
Qed.

(** C4, as the script has it: the check covers the five pollutant columns.
    If one of them is absent from the loaded table, the run shows one
    error that names exactly the absent ones and stops there, so nothing
    else is rendered; if all five are present the check passes silently
    and the run goes on with the sidebar. *)
Theorem schema_check_covers_the_pollutant_columns
    (read_csv : string → string + DataFrame) (ui : widgets) (data : DataFrame)
    (log0 : list event) :
  load_data read_csv "air_quality_index.csv" [] = (log0, Ok data) →
  (∀ c, c ∈ missing_cols data ↔ c ∈ required_cols ∧ c ∉ columns data)
  ∧ (missing_cols data ≠ [] →
     run read_csv ui
     = ((log0 ++ [StError (MissingExpectedColumns (missing_cols data))])%list,
        Raise StopException))
  ∧ (missing_cols data = [] →
     ∃ more, (run read_csv ui).1
             = (log0 ++ [StSidebarHeader; StSidebarMarkdown; StSidebarMarkdown] ++ more)%list).
Proof.
  intros Hload. split; [apply elem_of_missing_cols|]. split.
  - intros Hm. unfold run, main. rewrite (bind_ok _ _ _ _ _ Hload).
    by rewrite (bind_raise _ _ _ _ _ (validate_missing data log0 Hm)).
  - intros Hm. unfold run, main. rewrite (bind_ok _ _ _ _ _ Hload).
    rewrite (bind_ok _ _ _ _ _ (validate_pass data log0 Hm)).
    rewrite !bind_emit.
    destruct (page_emits ui data (((log0 ++ [StSidebarHeader]) ++ [StSidebarMarkdown])
                                   ++ [StSidebarMarkdown])%list) as [more [E _]].
    exists more. rewrite E. by rewrite <- !app_assoc.
Qed.

Lemma schema_check_covers_the_pollutant_columns_witness :
  (∀ c, c ∈ missing_cols Sample.data ↔ c ∈ required_cols ∧ c ∉ columns Sample.data)
  ∧ (missing_cols Sample.data ≠ [] →
     run (λ _, inr Sample.data) (Sample.visitor [Str "US"])
     = (([] ++ [StError (MissingExpectedColumns (missing_cols Sample.data))])%list,
        Raise StopException))
  ∧ (missing_cols Sample.data = [] →
     ∃ more, (run (λ _, inr Sample.data) (Sample.visitor [Str "US"])).1
             = ([] ++ [StSidebarHeader; StSidebarMarkdown; StSidebarMarkdown] ++ more)%list).
Proof.
  apply (schema_check_covers_the_pollutant_columns
           (λ _, inr Sample.data) (Sample.visitor [Str "US"]) Sample.data []).
  reflexivity.
Defined.

(** C4 as stated fails on a table without the category column: the column
    is on the specification's list and absent from the table, yet the
    check passes without a message and the run goes on up to the metrics. *)
Lemma schema_check_passes_without_category :
  "AQI Category" ∈ spec_required_cols
  ∧ ("AQI Category" ∉ columns Sample.no_category)
  ∧ load_data (λ _, inr Sample.no_category) "air_quality_index.csv" []
    = ([], Ok Sample.no_category)
  ∧ validate Sample.no_category [] = ([], Ok tt)
  ∧ ∃ shown, run (λ _, inr Sample.no_category) (Sample.visitor [Str "US"])
             = ((StSidebarHeader :: StSidebarMarkdown :: StSidebarMarkdown :: StTitle :: shown),
                Raise (NameError "plt")).
Proof.
  split; [by_evaluation|]. split; [by_evaluation|].
  split; [reflexivity|]. split; [reflexivity|].
  eexists. vm_compute. reflexivity.
Qed.

(** ** Up to the bar chart *)

Lemma numeric_no_text (i : nat) (rs : list row) :
  numeric_col i rs → existsb is_text (cell_at i <$> rs) = false.
Proof.
  intros H. induction rs as [|r t IH]; [done|]. cbn.
  rewrite (H r) by left. cbn. apply IH. intros x Hx. apply H. by right.
Qed.

Lemma numeric_no_text_rows (i : nat) (rs : list row) :
  numeric_col i rs → existsb (λ r, is_text (cell_at i r)) rs = false.
Proof.
  intros H. induction rs as [|r t IH]; [done|]. cbn.
  rewrite (H r) by left. cbn. apply IH. intros x Hx. apply H. by right.
Qed.

Lemma numbers_numeric (i : nat) (rs : list row) :
  numeric_col i rs → numbers (cell_at i <$> rs) = Ok (omap num_of (cell_at i <$> rs)).
Proof. intros H. unfold numbers. by rewrite numeric_no_text. Qed.

Lemma col_extreme_numeric (f : list Z → cell) (g : string → string → string)
    (i : nat) (rs : list row) :
  numeric_col i rs →
  col_extreme f g (cell_at i <$> rs) = Ok (f (omap num_of (cell_at i <$> rs))).
Proof. intros H. unfold col_extreme. by rewrite numeric_no_text. Qed.

Lemma get_stats_numeric (view : DataFrame) (col : string) (i : nat) :
  col_index col (columns view) = Some i →
  numeric_col i (rows view) →
  get_stats view col
  = Ok (match omap num_of (cell_at i <$> rows view) with
        | [] => None
        | l => Some (mean_of l)
        end,
        min_list (omap num_of (cell_at i <$> rows view)),
        max_list (omap num_of (cell_at i <$> rows view))).
Proof.
  intros Hi Hnum. unfold get_stats. rewrite (series_at _ _ _ Hi). cbn.
  unfold col_mean, col_min, col_max.
  rewrite (numbers_numeric _ _ Hnum), !(col_extreme_numeric _ _ _ _ Hnum). cbn.
  by destruct (omap num_of (cell_at i <$> rows view)).
Qed.

Lemma nlargest_numeric (n : nat) (view : DataFrame) (col : string) (i : nat) :
  col_index col (columns view) = Some i →
  numeric_col i (rows view) →
  nlargest n view col
  = Ok (Frame (columns view)
          (take n (stable_sort (λ r1 r2, desc (cell_at i r1) (cell_at i r2)) (rows view)))).
Proof.
  intros Hi Hnum. unfold nlargest, column_of. rewrite Hi. cbn.
  by rewrite numeric_no_text_rows.
Qed.

Lemma numbers_nonempty (i : nat) (rs : list row) (r : row) (z : Z) :
  r ∈ rs → cell_at i r = Num z →
  ∃ x t, omap num_of (cell_at i <$> rs) = x :: t.
Proof.
  intros Hr Hz. induction rs as [|y t IH]; [by apply elem_of_nil in Hr|].
  cbn. apply elem_of_cons in Hr as [<-|Hr].
  - rewrite Hz. cbn. by eexists _, _.
  - destruct (num_of (cell_at i y)); [by eexists _, _ | by apply IH].
Qed.

Lemma join_texts_texts (l : list cell) :
  Forall (λ c, is_text c = true) l → ∃ names, join_texts l = Ok names.
Proof.
  induction 1 as [|c t Hc _ [names IH]]; [by exists []|].
  destruct c as [|s|]; try done. exists (s :: names).
  unfold join_texts in *. cbn. by rewrite IH.
Qed.

Lemma table_and_metrics_ok (pl : pollutant_label) (lo hi : Z) (countries : list cell)
    (view : DataFrame) (names : list string) (stats : option average * cell * cell)
    (log : list event) :
  join_texts countries = Ok names →
  get_stats view (pollutant_dict pl) = Ok stats →
  table_and_metrics pl lo hi countries view log
  = ((log ++ [StTitle; StSelection pl lo hi names; StDataframe view;
              StMetric "Average AQI" (mean_metric stats.1.1);
              StMetric "Minimum AQI" (metric_of stats.1.2);
              StMetric "Maximum AQI" (metric_of stats.2)])%list, Ok tt).
Proof.
  intros Hj Hs. unfold table_and_metrics. rewrite bind_emit.
  unfold mbind at 1. unfold script_bind, lift. rewrite Hj.
  rewrite !bind_emit.
  unfold mbind at 1. unfold script_bind, lift. rewrite Hs.
  rewrite !bind_emit. unfold emit. by rewrite <- !app_assoc.
Qed.

Lemma col_extreme_number (f : list Z → cell) (g : string → string → string)
    (s : list cell) (z : Z) :
  col_extreme f g s = Ok (Num z) → existsb is_text s = false.
Proof.
  unfold col_extreme. destruct (existsb is_text s); [|done].
  destruct (forallb is_text _); [|done]. by destruct (omap text_of s).
Qed.

Lemma no_text_numeric (i : nat) (rs : list row) :
  existsb is_text (cell_at i <$> rs) = false → numeric_col i rs.
Proof.
  intros H r Hr. destruct (is_text (cell_at i r)) eqn:E; [|done].
  assert (existsb is_text (cell_at i <$> rs) = true) as Ht; [|by rewrite Ht in H].
  apply existsb_exists. exists (cell_at i r). split; [|done].
  apply list_elem_of_In, list_elem_of_fmap. by exists r.
Qed.

Lemma one_series_at (df : DataFrame) (c : string) (e : exn) (i : nat) :
  col_index c (columns df) = Some i → duplicated c (columns df) = false →
  one_series df c e = Ok (cell_at i <$> rows df).
Proof. intros Hi Hd. unfold one_series. rewrite (series_at _ _ _ Hi). cbn. by rewrite Hd. Qed.

Lemma controls_ok (ui : widgets) (data : DataFrame) (i c : nat) (lo hi : Z)
    (range : Z * Z) (countries : list cell) (log : list event) :
  col_index (pollutant_dict (selectbox ui)) (columns data) = Some i →
  duplicated (pollutant_dict (selectbox ui)) (columns data) = false →
  col_min (cell_at i <$> rows data) = Ok (Num lo) →
  col_max (cell_at i <$> rows data) = Ok (Num hi) →
  slider ui lo hi = Ok range →
  col_index "Country" (columns data) = Some c →
  duplicated "Country" (columns data) = false →
  multiselect_countries ui (unique (cell_at c <$> rows data)) = Ok countries →
  controls ui data log
  = (log, Ok (selectbox ui, range.1, range.2, countries,
              Frame (columns data)
                (List.filter (λ r, in_range range.1 range.2 (cell_at i r)
                                   && selected countries (cell_at c r)) (rows data)))).
Proof.
  intros Hi Hd Hmin Hmax Hs Hc Hdc Hm.
  pose proof (no_text_numeric _ _ (col_extreme_number _ _ _ _ Hmin)) as Hnum.
  unfold controls, lift, mbind, script_bind.
  rewrite (one_series_at _ _ _ i Hi Hd), Hmin, Hmax. cbn. rewrite Hs.
  rewrite (one_series_at _ _ _ c Hc Hdc), Hm.
  rewrite (filtered_rows _ _ _ _ _ i c) by done. reflexivity.
Qed.

(** C10, as the script runs.  Whatever the file and the visitor, the run
    ends in an exception and renders nothing beyond the error boxes, the
    sidebar texts, the title, the selection line, the table and the three
    metrics: no chart, pivot table, level codes, category counts, map or
    export.  When the table is loaded and passes the column check, one
    column bears the name of the chosen pollutant and holds a least and a
    greatest number, the slider returns on these two bounds, one column
    bears the name [Country], the country selector returns on its values,
    and the selected countries are texts, the run gets to the top-10
    chart, right after the three metrics, and raises [NameError] for [plt]
    there. *)
Theorem run_ends_by_the_bar_chart (read_csv : string → string + DataFrame) (ui : widgets) :
  (∃ e, (run read_csv ui).2 = Raise e)
  ∧ Forall early (run read_csv ui).1
  ∧ (∀ data log0 i c lo hi range countries,
       load_data read_csv "air_quality_index.csv" [] = (log0, Ok data) →
       missing_cols data = [] →
       col_index (pollutant_dict (selectbox ui)) (columns data) = Some i →
       duplicated (pollutant_dict (selectbox ui)) (columns data) = false →
       col_min (cell_at i <$> rows data) = Ok (Num lo) →
       col_max (cell_at i <$> rows data) = Ok (Num hi) →
       slider ui lo hi = Ok range →
       col_index "Country" (columns data) = Some c →
       duplicated "Country" (columns data) = false →
       multiselect_countries ui (unique (cell_at c <$> rows data)) = Ok countries →
       Forall (λ x, is_text x = true) countries →
       ∃ names view mean least most,
         run read_csv ui
         = ((log0 ++ [StSidebarHeader; StSidebarMarkdown; StSidebarMarkdown; StTitle;
                      StSelection (selectbox ui) range.1 range.2 names; StDataframe view;
                      StMetric "Average AQI" mean; StMetric "Minimum AQI" least;
                      StMetric "Maximum AQI" most])%list,
            Raise (NameError "plt"))).
Proof.
  split; [apply (main_raises read_csv ui [])|]. split.
  - destruct (main_emits read_csv ui []) as [more [E F]]. unfold run. by rewrite E.
  - intros data log0 i c lo hi range countries
      Hload Hmiss Hi Hd Hmin Hmax Hs Hc Hdc Hm Htext.
    pose proof (no_text_numeric _ _ (col_extreme_number _ _ _ _ Hmin)) as Hnum.
    pose proof (controls_ok ui data i c lo hi range countries
                  (((log0 ++ [StSidebarHeader]) ++ [StSidebarMarkdown])
                     ++ [StSidebarMarkdown])%list
                  Hi Hd Hmin Hmax Hs Hc Hdc Hm) as Hctl.
    destruct (join_texts_texts countries Htext) as [names Hnames].
    set (view := Frame (columns data) _) in Hctl.
    assert (numeric_col i (rows view)) as Hnv by (by apply numeric_col_filter).
    pose proof (get_stats_numeric view _ i Hi Hnv) as Hstats.
    pose proof (nlargest_numeric 10 view _ i Hi Hnv) as Htop.
    eexists names, view, _, _, _.
    unfold run, main. rewrite (bind_ok _ _ _ _ _ Hload).
    rewrite (bind_ok _ _ _ _ _ (validate_pass data log0 Hmiss)).
    rewrite !bind_emit. unfold page. rewrite (bind_ok _ _ _ _ _ Hctl).
    rewrite (bind_ok _ _ _ _ _ (table_and_metrics_ok _ _ _ _ _ _ _ _ Hnames Hstats)).
    rewrite (bind_raise _ _ _ _ _ (bar_chart_plt _ _ _ _ Htop)).
    by rewrite <- !app_assoc.
Qed.

Lemma run_ends_by_the_bar_chart_witness :
  ∃ names view mean least most,
    run (λ _, inr Sample.data) (Sample.visitor [Str "US"])
    = (([] ++ [StSidebarHeader; StSidebarMarkdown; StSidebarMarkdown; StTitle;
               StSelection OverallAQI (50, 150).1 (50, 150).2 names; StDataframe view;
               StMetric "Average AQI" mean; StMetric "Minimum AQI" least;
               StMetric "Maximum AQI" most])%list,
       Raise (NameError "plt")).
Proof.
  apply (proj2 (proj2 (run_ends_by_the_bar_chart
                         (λ _, inr Sample.data) (Sample.visitor [Str "US"])))
           Sample.data [] 4%nat 1%nat 50 150 (50, 150) [Str "US"]).
  - reflexivity.
  - reflexivity.
  - reflexivity.
  - reflexivity.
  - reflexivity.
  - reflexivity.
  - reflexivity.
  - reflexivity.
  - reflexivity.
  - reflexivity.
  - by constructor.
Defined.

(** C10 as stated fails on a file with a header line and no record: the
    table loads and passes the column check, and the run stops at the
    slider bounds with [ValueError], before the chart is reached. *)
Lemma run_stops_at_the_slider_on_an_empty_table :
  load_data (λ _, inr Sample.header_only) "air_quality_index.csv" []
    = ([], Ok Sample.header_only)
  ∧ validate Sample.header_only [] = ([], Ok tt)
  ∧ run (λ _, inr Sample.header_only) (Sample.visitor [Str "US"])
    = ([StSidebarHeader; StSidebarMarkdown; StSidebarMarkdown], Raise ValueError).
Proof. repeat split; reflexivity. Qed.

(** ** What a successful filter tells *)

Lemma traverse_ge_numeric (k : Z) (s : list cell) (m : list bool) :
  traverse (ge_scalar k) s = Ok m → ∀ c, c ∈ s → is_text c = false.
Proof.
  revert m. induction s as [|x t IH]; intros m H c Hc; [by apply elem_of_nil in Hc|].
  cbn in H. destruct x as [z|s'|]; cbn in H; try done;
    (destruct (traverse (ge_scalar k) t) as [m'|] eqn:E; [|done]);
    (apply elem_of_cons in Hc as [->|Hc]; [done | by eapply IH]).
Qed.

Lemma filter_data_ok_inv (df out : DataFrame) (pollutant : string) (low high : Z) :
  filter_data df pollutant low high = Ok out →
  ∃ i, col_index pollutant (columns df) = Some i ∧ numeric_col i (rows df).
Proof.
  unfold filter_data, series, column_of.
  destruct (col_index pollutant (columns df)) as [i|]; [|done]. cbn.
  destruct (traverse (ge_scalar low) (cell_at i <$> rows df)) as [m|] eqn:E; [|done].
  intros _. exists i. split; [done|]. intros r Hr.
  apply (traverse_ge_numeric _ _ _ E). apply list_elem_of_fmap. by exists r.
Qed.

Lemma filter_isin_ok_inv (df out : DataFrame) (c : string) (values : list cell) :
  filter_isin df c values = Ok out → ∃ i, col_index c (columns df) = Some i.
Proof.
  unfold filter_isin, series, column_of.
  destruct (col_index c (columns df)) as [i|]; [by exists i|done].
Qed.

Lemma filtered_ok_inv (data view : DataFrame) (pollutant_col : string) (low high : Z)
    (countries : list cell) :
  filtered data pollutant_col low high countries = Ok view →
  ∃ i c, col_index pollutant_col (columns data) = Some i
    ∧ numeric_col i (rows data)
    ∧ col_index "Country" (columns data) = Some c
    ∧ view = Frame (columns data)
               (List.filter (λ r, in_range low high (cell_at i r)
                                  && selected countries (cell_at c r)) (rows data)).
Proof.
  intros H. pose proof H as H'. unfold filtered in H'.
  destruct (filter_data data pollutant_col low high) as [f|] eqn:Ef; [|done].
  destruct (filter_data_ok_inv _ _ _ _ _ Ef) as [i [Hi Hnum]].
  rewrite (filter_data_rows _ _ _ _ _ Hi Hnum) in Ef. injection Ef as <-.
  cbn in H'. destruct (filter_isin_ok_inv _ _ _ _ H') as [c Hc]. cbn in Hc.
  exists i, c. repeat split; try done.
  rewrite (filtered_rows _ _ _ _ _ i c) in H by done. by injection H as <-.
Qed.

(** Every value of a filtered view is a number in the range. *)
Lemma filtered_values (data view : DataFrame) (pollutant_col : string) (low high : Z)
    (countries : list cell) :
  filtered data pollutant_col low high countries = Ok view →
  ∃ i, col_index pollutant_col (columns view) = Some i
    ∧ ∀ r, r ∈ rows view → ∃ z, cell_at i r = Num z ∧ low ≤ z ≤ high.
Proof.
  intros H. destruct (filtered_ok_inv _ _ _ _ _ _ H) as [i [c [Hi [_ [_ ->]]]]].
  exists i. split; [done|]. cbn. intros r [_ Hr]%elem_of_filter_bool.
  apply andb_true_iff in Hr as [Hr _]. unfold in_range in Hr.
  destruct (cell_at i r) as [z| |]; try done. exists z. split; [done|]. lia.
Qed.

(** ** Empty views *)

(** C8: when a filter combination leaves the table view without rows, the
    aggregates over it return: the summary is the missing value three
    times, the top-n selection has no row, and the category counts are the
    empty mapping. *)
Theorem aggregates_of_an_empty_view (data view : DataFrame) (pollutant_col : string)
    (low high : Z) (countries : list cell) (n : nat) :
  filtered data pollutant_col low high countries = Ok view →
  rows view = [] →
  get_stats view pollutant_col = Ok (None, NaN, NaN)
  ∧ nlargest n view pollutant_col = Ok (Frame (columns view) [])
  ∧ cat_counts view = Ok ∅.
Proof.
  intros H Hrows. destruct (filtered_values _ _ _ _ _ _ H) as [i [Hi _]].
  assert (numeric_col i (rows view)) as Hnum.
  { rewrite Hrows. by intros r ?%elem_of_nil. }
  split; [|split].
  - rewrite (get_stats_numeric _ _ i Hi Hnum). by rewrite Hrows.
  - rewrite (nlargest_numeric _ _ _ i Hi Hnum). rewrite Hrows. cbn. by rewrite take_nil.
  - unfold cat_counts. by rewrite Hrows.
Qed.

Lemma aggregates_of_an_empty_view_witness :
  get_stats (Frame Sample.header []) "AQI Value" = Ok (None, NaN, NaN)
  ∧ nlargest 10 (Frame Sample.header []) "AQI Value"
    = Ok (Frame (columns (Frame Sample.header [])) [])
  ∧ cat_counts (Frame Sample.header []) = Ok ∅.
Proof.
  apply (aggregates_of_an_empty_view Sample.data (Frame Sample.header [])
           "AQI Value" 60 200 [] 10).
  - reflexivity.
  - reflexivity.
Defined.

(** ** The encoder *)

(** C9: the encoder gives each of the six category texts its code, and
    every other text the missing marker; it is a total function, so it
    returns on every input. *)
Theorem encode_follows_the_table :
  encode (Str "Good") = Num 1
  ∧ encode (Str "Moderate") = Num 2
  ∧ encode (Str "Unhealthy for Sensitive Groups") = Num 3
  ∧ encode (Str "Unhealthy") = Num 4
  ∧ encode (Str "Very Unhealthy") = Num 5
  ∧ encode (Str "Hazardous") = Num 6
  ∧ ∀ s, s ∉ ["Good"; "Moderate"; "Unhealthy for Sensitive Groups"; "Unhealthy";
              "Very Unhealthy"; "Hazardous"] →
         encode (Str s) = NaN.
Proof.
  do 6 (split; [reflexivity|]).
  intros s Hs. unfold encode, category_map.
  rewrite (not_elem_of_list_to_map_1 _ s); [done|]. exact Hs.
Qed.

Lemma encode_follows_the_table_witness : encode (Str "Fair") = NaN.
Proof.
  apply (proj2 (proj2 (proj2 (proj2 (proj2 (proj2 encode_follows_the_table)))))).
  by_evaluation.
Defined.

(** ** The stable sort *)

Section StableSort.
Context {A : Type} (before : A → A → bool).

Lemma insert_by_perm (x : A) (l : list A) : insert_by before x l ≡ₚ x :: l.
Proof.
  induction l as [|y t IH]; [done|]. cbn.
  destruct (before x y); [done|]. rewrite IH. apply Permutation_swap.
Qed.

Lemma stable_sort_perm (l : list A) : stable_sort before l ≡ₚ l.
Proof.
  induction l as [|x t IH]; [done|]. cbn.
  rewrite insert_by_perm. by f_equiv.
Qed.

Lemma stable_sort_length (l : list A) : length (stable_sort before l) = length l.
Proof. by rewrite stable_sort_perm. Qed.

(** Where [x] may precede every element that passes [p], inserting [x]
    puts it in front of them. *)
Lemma filter_insert_by (p : A → bool) (x : A) (l : list A) :
  (∀ y, y ∈ l → p x = true → p y = true → before x y = true) →
  List.filter p (insert_by before x l) = List.filter p (x :: l).
Proof.
  induction l as [|y t IH]; intros H; [done|]. cbn.
  destruct (before x y) eqn:E; [done|]. cbn.
  rewrite IH by (intros z Hz; apply H; by right). cbn.
  destruct (p x) eqn:Px, (p y) eqn:Py; try done.
  rewrite H in E; [done|by left|done|done].
Qed.

(** Stability: the elements of one class keep their original order. *)
Lemma filter_stable_sort (p : A → bool) (l : list A) :
  (∀ x y, p x = true → p y = true → before x y = true) →
  List.filter p (stable_sort before l) = List.filter p l.
Proof.
  intros H. induction l as [|x t IH]; [done|]. cbn [stable_sort foldr].
  rewrite filter_insert_by by (intros y _; apply H). cbn.
  fold (stable_sort before t). by rewrite IH.
Qed.

Hypothesis before_total : ∀ x y, before x y = true ∨ before y x = true.
Hypothesis before_trans :
  ∀ x y z, before x y = true → before y z = true → before x z = true.

Lemma insert_by_sorted (x : A) (l : list A) :
  StronglySorted (λ a b, before a b = true) l →
  StronglySorted (λ a b, before a b = true) (insert_by before x l).
Proof.
  induction 1 as [|y t Hs IH Hy]; cbn; [by repeat constructor|].
  destruct (before x y) eqn:E.
  - constructor; [by constructor|]. constructor; [done|].
    eapply Forall_impl; [exact Hy|]. intros z Hz. by eapply before_trans.
  - constructor; [done|]. rewrite insert_by_perm. constructor; [|done].
    by destruct (before_total x y) as [H|H]; [rewrite H in E|].
Qed.

Lemma stable_sort_sorted (l : list A) :
  StronglySorted (λ a b, before a b = true) (stable_sort before l).
Proof.
  induction l as [|x t IH]; [constructor|]. cbn. by apply insert_by_sorted.
Qed.
End StableSort.

Lemma filter_app_bool {A : Type} (p : A → bool) (l k : list A) :
  List.filter p (l ++ k)%list = (List.filter p l ++ List.filter p k)%list.
Proof. apply List.filter_app. Qed.

Lemma filter_take_prefix {A : Type} (p : A → bool) (n : nat) (l : list A) :
  List.filter p (take n l) `prefix_of` List.filter p l.
Proof.
  exists (List.filter p (drop n l)).
  by rewrite <- filter_app_bool, take_drop.
Qed.

(** ** Sorted lists *)




Lemma StronglySorted_lookup {A : Type} (R : A → A → Prop) (l : list A)
    (j k : nat) (a b : A) :
  StronglySorted R l → (j < k)%nat → l !! j = Some a → l !! k = Some b → R a b.
Proof.
  intros Hs. revert j k. induction Hs as [|x t _ IH Hx]; intros j k Hjk Hj Hk; [done|].
  destruct k as [|k]; [lia|]. cbn in Hk. destruct j as [|j].
  - cbn in Hj. injection Hj as <-. apply (proj1 (Forall_forall _ _) Hx).
    by eapply list_elem_of_lookup_2.
  - cbn in Hj. apply (IH j k); [lia|done|done].
Qed.

(** ** The top-n selection *)

Lemma desc_refl (a : cell) : desc a a = true.
Proof. destruct a; cbn; [apply Z.leb_refl|done|done]. Qed.

Lemma desc_total (a b : cell) : desc a b = true ∨ desc b a = true.
Proof. destruct a, b; cbn; try (by left); try (by right). rewrite !Z.leb_le. lia. Qed.

Lemma desc_trans (a b c : cell) : desc a b = true → desc b c = true → desc a c = true.
Proof. destruct a, b, c; cbn; try done. rewrite !Z.leb_le. lia. Qed.

(** On numbers [desc] is [>=]; a missing value never precedes a number. *)
Lemma desc_numbers (x y : Z) : desc (Num x) (Num y) = true ↔ y ≤ x.
Proof. cbn. apply Z.leb_le. Qed.

Lemma desc_missing (y : Z) : desc NaN (Num y) = false.
Proof. reflexivity. Qed.

Lemma desc_from_number (c : cell) (z : Z) :
  is_text c = false → desc c (Num z) = true → ∃ h, c = Num h ∧ z ≤ h.
Proof.
  destruct c as [h| |]; cbn; try done. intros _ H%Z.leb_le. by exists h.
Qed.

(** C6: on a numeric column [nlargest n] returns [min n (length view)]
    rows of the view.  They are in descending order of the column: when a
    row of the result holds a number, every row before it holds a number
    at least as large (so missing values come last).  They are the top:
    together with the rows left out they make up the view, and a row left
    out that holds a number has no smaller number before it in the
    result.  Rows with the same value come in their original order, the
    earliest first. *)
Theorem nlargest_is_the_sorted_top (n : nat) (view : DataFrame) (col : string) (i : nat) :
  col_index col (columns view) = Some i →
  numeric_col i (rows view) →
  ∃ out, nlargest n view col = Ok out
    ∧ columns out = columns view
    ∧ length (rows out) = Nat.min n (length (rows view))
    ∧ rows out ⊆+ rows view
    ∧ (∀ j k rj rk y, (j < k)%nat →
         rows out !! j = Some rj → rows out !! k = Some rk → cell_at i rk = Num y →
         ∃ x, cell_at i rj = Num x ∧ y ≤ x)
    ∧ (∃ rest, (rows out ++ rest)%list ≡ₚ rows view
         ∧ ∀ r r' y, r ∈ rows out → r' ∈ rest → cell_at i r' = Num y →
             ∃ x, cell_at i r = Num x ∧ y ≤ x)
    ∧ (∀ v, List.filter (λ r, bool_decide (cell_at i r = v)) (rows out)
            `prefix_of` List.filter (λ r, bool_decide (cell_at i r = v)) (rows view)).
Proof.
  intros Hi Hnum. eexists. split; [by apply nlargest_numeric|]. cbn.
  set (before := λ r1 r2, desc (cell_at i r1) (cell_at i r2)).
  set (sorted := stable_sort before (rows view)).
  assert (StronglySorted (λ a b, before a b = true) sorted) as Hs.
  { apply stable_sort_sorted.
    - intros x y. apply desc_total.
    - intros x y z. apply desc_trans. }
  assert (∀ r, r ∈ sorted → is_text (cell_at i r) = false) as Hnt.
  { intros r Hr. apply Hnum. unfold sorted in Hr. by rewrite stable_sort_perm in Hr. }
  split; [done|]. split.
  { unfold sorted. by rewrite length_take, stable_sort_length. }
  split.
  { etrans; [apply sublist_submseteq, sublist_take|].
    apply Permutation_submseteq, stable_sort_perm. }
  split.
  { intros j k rj rk y Hjk Hj Hk Hy.
    apply lookup_take_Some in Hj as [Hj _]. apply lookup_take_Some in Hk as [Hk _].
    apply (desc_from_number _ y).
    - apply Hnt. by eapply list_elem_of_lookup_2.
    - rewrite <- Hy. apply (StronglySorted_lookup _ _ j k rj rk Hs Hjk Hj Hk). }
  split.
  { exists (drop n sorted). rewrite take_drop. split; [apply stable_sort_perm|].
    intros r r' y Hr Hr' Hy. rewrite <- (take_drop n sorted) in Hs.
    apply (desc_from_number _ y).
    - apply Hnt. by eapply elem_of_sublist; [|apply sublist_take].
    - rewrite <- Hy. by apply (StronglySorted_app_1_elem_of _ _ _ _ _ Hs). }
  intros v.
  rewrite <- (filter_stable_sort before (λ r, bool_decide (cell_at i r = v)) (rows view)).
  - apply filter_take_prefix.
  - intros x y Hx%bool_decide_eq_true Hy%bool_decide_eq_true.
    unfold before. rewrite Hx, Hy. apply desc_refl.
Qed.

Lemma nlargest_is_the_sorted_top_witness :
  ∃ out, nlargest 2 Sample.data "AQI Value" = Ok out
    ∧ columns out = columns Sample.data
    ∧ length (rows out) = Nat.min 2 (length (rows Sample.data))
    ∧ rows out ⊆+ rows Sample.data
    ∧ (∀ j k rj rk y, (j < k)%nat →
         rows out !! j = Some rj → rows out !! k = Some rk → cell_at 4 rk = Num y →
         ∃ x, cell_at 4 rj = Num x ∧ y ≤ x)
    ∧ (∃ rest, (rows out ++ rest)%list ≡ₚ rows Sample.data
         ∧ ∀ r r' y, r ∈ rows out → r' ∈ rest → cell_at 4 r' = Num y →
             ∃ x, cell_at 4 r = Num x ∧ y ≤ x)
    ∧ (∀ v, List.filter (λ r, bool_decide (cell_at 4 r = v)) (rows out)
            `prefix_of` List.filter (λ r, bool_decide (cell_at 4 r = v)) (rows Sample.data)).
Proof.
  apply (nlargest_is_the_sorted_top 2 Sample.data "AQI Value" 4).
  - reflexivity.
  - exact sample_aqi_numeric.
Defined.

(** ** The order of group keys *)

Lemma cell_compare_eq (a b : cell) : cell_compare a b = Eq ↔ a = b.
Proof.
  destruct a, b; cbn; try done.
  - rewrite Z.compare_eq_iff. split; [by intros -> | by intros [= ->]].
  - rewrite (String_as_OT.cmp_eq s s0). split; [by intros -> | by intros [= ->]].
Qed.

Lemma cell_compare_antisym (a b : cell) : cell_compare a b = CompOpp (cell_compare b a).
Proof.
  destruct a, b; cbn; try done.
  - apply Z.compare_antisym.
  - apply String.compare_antisym.
Qed.

Lemma cell_compare_lt_trans (a b c : cell) :
  cell_compare a b = Lt → cell_compare b c = Lt → cell_compare a c = Lt.
Proof.
  destruct a, b, c; cbn; try done.
  - rewrite !Z.compare_lt_iff. lia.
  - rewrite !(String_as_OT.cmp_lt). apply String_as_OT.lt_trans.
Qed.

Lemma cell_leb_total (a b : cell) : cell_leb a b = true ∨ cell_leb b a = true.
Proof.
  unfold cell_leb. rewrite (cell_compare_antisym b a).
  destruct (cell_compare a b); cbn; auto.
Qed.

Lemma cell_leb_trans (a b c : cell) :
  cell_leb a b = true → cell_leb b c = true → cell_leb a c = true.
Proof.
  unfold cell_leb.
  destruct (cell_compare a b) eqn:Eab; [|idtac|done].
  - apply cell_compare_eq in Eab as ->. done.
  - destruct (cell_compare b c) eqn:Ebc; [|idtac|done].
    + apply cell_compare_eq in Ebc as ->. by rewrite Eab.
    + by rewrite (cell_compare_lt_trans a b c).
Qed.

Lemma cell_leb_lt (a b : cell) : cell_leb a b = true → a ≠ b → cell_compare a b = Lt.
Proof.
  unfold cell_leb. destruct (cell_compare a b) eqn:E; [|done|done].
  apply cell_compare_eq in E. done.
Qed.

Lemma StronglySorted_NoDup_strict (l : list cell) :
  StronglySorted (λ a b, cell_leb a b = true) l → NoDup l →
  StronglySorted (λ a b, cell_compare a b = Lt) l.
Proof.
  induction 1 as [|x t Hs IH Hx]; intros Hnd; [constructor|].
  apply NoDup_cons in Hnd as [Hnx Hnd]. constructor; [by apply IH|].
  apply Forall_forall. intros y Hy. apply cell_leb_lt.
  - by eapply Forall_forall in Hx.
  - by intros ->.
Qed.

(** ** First occurrences *)

Lemma elem_of_unique (c : cell) (l : list cell) : c ∈ unique l ↔ c ∈ l.
Proof.
  induction l as [|x t IH]; [done|]. cbn.
  rewrite !elem_of_cons, elem_of_filter_bool, bool_decide_eq_true, IH.
  destruct (decide (c = x)) as [->|Hne]; [by split; left|].
  split; [intros [?|[? _]]; [done|by right] | intros [?|?]; [done|by right]].
Qed.

Lemma NoDup_filter_bool {A : Type} (p : A → bool) (l : list A) :
  NoDup l → NoDup (List.filter p l).
Proof. intros H. eapply sublist_NoDup; [exact H | apply sublist_filter_bool]. Qed.

Lemma NoDup_unique (l : list cell) : NoDup (unique l).
Proof.
  induction l as [|x t IH]; cbn; [constructor|].
  constructor; [|by apply NoDup_filter_bool].
  intros [_ H]%elem_of_filter_bool. by apply bool_decide_eq_true in H.
Qed.

(** ** The pivot table *)









(** * Further properties of the script *)

(** ** Filtering twice *)

Lemma filter_idem {A : Type} (p : A → bool) (l : list A) :
  List.filter p (List.filter p l) = List.filter p l.
Proof.
  rewrite filter_filter. apply filter_ext_in. intros x _. by destruct (p x).
Qed.

Lemma in_range_meet (lo hi lo' hi' : Z) (c : cell) :
  in_range lo hi c && in_range lo' hi' c = in_range (Z.max lo lo') (Z.min hi hi') c.
Proof.
  destruct c as [z| |]; cbn; try done.
  apply eq_true_iff_eq. rewrite !andb_true_iff, !Z.leb_le. lia.
Qed.

(** X1: on a numeric column, filtering a range-filtered table by a second
    range gives what one filter by the intersection of the two ranges
    gives; with the same range again nothing changes. *)
Theorem filter_data_composes (df : DataFrame) (pollutant : string)
    (low high low' high' : Z) (i : nat) :
  col_index pollutant (columns df) = Some i →
  numeric_col i (rows df) →
  (out ← filter_data df pollutant low high; filter_data out pollutant low' high')
    = filter_data df pollutant (Z.max low low') (Z.min high high')
  ∧ (out ← filter_data df pollutant low high; filter_data out pollutant low high)
    = filter_data df pollutant low high.
Proof.
  intros Hi Hnum.
  assert (∀ a b, (out ← filter_data df pollutant low high; filter_data out pollutant a b)
                 = filter_data df pollutant (Z.max low a) (Z.min high b)) as H.
  { intros a b. rewrite !(filter_data_rows df _ _ _ i) by done. cbn.
    rewrite (filter_data_rows _ _ _ _ i); cbn; [|done|by apply numeric_col_filter].
    rewrite filter_filter. do 2 f_equal. apply filter_ext_in. intros r _.
    apply in_range_meet. }
  split; [apply H|]. rewrite H. by rewrite Z.max_id, Z.min_id.
Qed.

Lemma filter_data_composes_witness :
  (out ← filter_data Sample.data "AQI Value" 60 200; filter_data out "AQI Value" 0 100)
    = filter_data Sample.data "AQI Value" (Z.max 60 0) (Z.min 200 100)
  ∧ (out ← filter_data Sample.data "AQI Value" 60 200; filter_data out "AQI Value" 60 200)
    = filter_data Sample.data "AQI Value" 60 200.
Proof.
  apply (filter_data_composes Sample.data "AQI Value" 60 200 0 100 4).
  - reflexivity.
  - exact sample_aqi_numeric.
Defined.

(** X2: both views are fixed by their own filters: the table view
    filtered again with the same pollutant, range and countries is the
    table view, and the map view filtered again with the same cities and
    categories is the map view. *)
Theorem views_are_idempotent (data : DataFrame) (pollutant_col : string) (low high : Z)
    (countries cities categories : list cell) (i c ci ca : nat) :
  col_index pollutant_col (columns data) = Some i →
  numeric_col i (rows data) →
  col_index "Country" (columns data) = Some c →
  col_index "City" (columns data) = Some ci →
  col_index "AQI Category" (columns data) = Some ca →
  (∃ view, filtered data pollutant_col low high countries = Ok view
     ∧ filtered view pollutant_col low high countries = Ok view)
  ∧ (∃ view, filtered_data data cities categories = Ok view
     ∧ filtered_data view cities categories = Ok view).
Proof.
  intros Hi Hnum Hc Hci Hca. split.
  - eexists. split; [by apply (filtered_rows _ _ _ _ _ i c)|].
    rewrite (filtered_rows _ _ _ _ _ i c); cbn; [|done|by apply numeric_col_filter|done].
    by rewrite filter_idem.
  - eexists. split; [by apply (filtered_data_rows _ _ _ ci ca)|].
    rewrite (filtered_data_rows _ _ _ ci ca); cbn; [|done|done].
    by rewrite filter_idem.
Qed.

Lemma views_are_idempotent_witness :
  (∃ view, filtered Sample.data "AQI Value" 60 200 [Str "US"] = Ok view
     ∧ filtered view "AQI Value" 60 200 [Str "US"] = Ok view)
  ∧ (∃ view, filtered_data Sample.data [Str "A"] [Str "Good"] = Ok view
     ∧ filtered_data view [Str "A"] [Str "Good"] = Ok view).
Proof.
  apply (views_are_idempotent Sample.data "AQI Value" 60 200
           [Str "US"] [Str "A"] [Str "Good"] 4 1 0 9).
  - reflexivity.
  - exact sample_aqi_numeric.
  - reflexivity.
  - reflexivity.
  - reflexivity.
Defined.

(** ** Least and greatest value *)

Lemma elem_of_column_values (i : nat) (rs : list row) (z : Z) :
  z ∈ column_values i rs ↔ ∃ r, r ∈ rs ∧ cell_at i r = Num z.
Proof.
  unfold column_values. rewrite list_elem_of_omap. split.
  - intros [c [[r [-> Hr]]%list_elem_of_fmap Hc]]. exists r. split; [done|].
    destruct (cell_at i r); cbn in Hc; by simplify_eq.
  - intros [r [Hr Hz]]. exists (Num z). split; [|done].
    apply list_elem_of_fmap. by exists r.
Qed.

Lemma foldr_min_spec (x : Z) (t : list Z) :
  foldr Z.min x t ∈ x :: t ∧ Forall (λ z, foldr Z.min x t ≤ z) (x :: t).
Proof.
  induction t as [|y t [IHin IHle]]; cbn.
  - split; [by left|]. by repeat constructor.
  - apply Forall_cons in IHle as [Hx Ht]. split.
    + destruct (Z.min_spec y (foldr Z.min x t)) as [[_ ->]|[_ ->]].
      * right. by left.
      * apply elem_of_cons in IHin as [->|?]; [by left|]. right. by right.
    + repeat constructor; [lia|lia|].
      eapply Forall_impl; [exact Ht|]. cbn. intros z Hz. lia.
Qed.

Lemma foldr_max_spec (x : Z) (t : list Z) :
  foldr Z.max x t ∈ x :: t ∧ Forall (λ z, z ≤ foldr Z.max x t) (x :: t).
Proof.
  induction t as [|y t [IHin IHle]]; cbn.
  - split; [by left|]. by repeat constructor.
  - apply Forall_cons in IHle as [Hx Ht]. split.
    + destruct (Z.max_spec y (foldr Z.max x t)) as [[_ ->]|[_ ->]].
      * apply elem_of_cons in IHin as [->|?]; [by left|]. right. by right.
      * right. by left.
    + repeat constructor; [lia|lia|].
      eapply Forall_impl; [exact Ht|]. cbn. intros z Hz. lia.
Qed.

(** X3: on a numeric column with at least one number [get_stats] returns
    a mean and two numbers: the minimum and the maximum are values of
    the column, every value of the column lies between them, and the mean
    is the mean of all the numbers of the column. *)
Theorem get_stats_brackets_the_column (view : DataFrame) (col : string) (i : nat)
    (r0 : row) (z0 : Z) :
  col_index col (columns view) = Some i →
  numeric_col i (rows view) →
  r0 ∈ rows view → cell_at i r0 = Num z0 →
  ∃ lo hi, get_stats view col
           = Ok (Some (MeanOf (omap num_of (cell_at i <$> rows view))), Num lo, Num hi)
    ∧ (∃ r, r ∈ rows view ∧ cell_at i r = Num lo)
    ∧ (∃ r, r ∈ rows view ∧ cell_at i r = Num hi)
    ∧ (∀ r z, r ∈ rows view → cell_at i r = Num z → lo ≤ z ≤ hi).
Proof.
  intros Hi Hnum Hr0 Hz0.
  rewrite (get_stats_numeric _ _ i Hi Hnum).
  destruct (numbers_nonempty i _ r0 z0 Hr0 Hz0) as [x [t Hx]].
  destruct (foldr_min_spec x t) as [Hmin Hle].
  destruct (foldr_max_spec x t) as [Hmax Hge].
  rewrite Hx. cbn [min_list max_list].
  eexists _, _. split; [reflexivity|].
  fold (column_values i (rows view)) in Hx.
  rewrite <- Hx in Hmin, Hmax, Hle, Hge.
  split; [by apply elem_of_column_values|].
  split; [by apply elem_of_column_values|].
  intros r z Hr Hz.
  assert (z ∈ column_values i (rows view)) as Hin.
  { apply elem_of_column_values. by exists r. }
  split; [by eapply Forall_forall in Hle | by eapply Forall_forall in Hge].
Qed.

Lemma get_stats_brackets_the_column_witness :
  ∃ lo hi, get_stats Sample.data "AQI Value"
           = Ok (Some (MeanOf (omap num_of (cell_at 4 <$> rows Sample.data))), Num lo, Num hi)
    ∧ (∃ r, r ∈ rows Sample.data ∧ cell_at 4 r = Num lo)
    ∧ (∃ r, r ∈ rows Sample.data ∧ cell_at 4 r = Num hi)
    ∧ (∀ r z, r ∈ rows Sample.data → cell_at 4 r = Num z → lo ≤ z ≤ hi).
Proof.
  apply (get_stats_brackets_the_column Sample.data "AQI Value" 4
           (Sample.record 0 "A" "US" 50 "Good") 50).
  - reflexivity.
  - exact sample_aqi_numeric.
  - by left.
  - reflexivity.
Defined.

(** ** The metrics of the table view *)

Lemma filtered_view_numeric (view : DataFrame) (i : nat) (low high : Z) :
  (∀ r, r ∈ rows view → ∃ z, cell_at i r = Num z ∧ low ≤ z ≤ high) →
  numeric_col i (rows view)
  ∧ Forall (λ z, low ≤ z ≤ high) (column_values i (rows view)).
Proof.
  intros H. split.
  - intros r Hr. by destruct (H r Hr) as [z [-> _]].
  - apply Forall_forall. intros z [r [Hr Hz]]%elem_of_column_values.
    destruct (H r Hr) as [z' [Hz' Hb]]. rewrite Hz in Hz'. by injection Hz' as <-.
Qed.

(** X4: when the table view has a row, its minimum and its maximum are
    numbers inside the selected range: [low <= minimum <= maximum <= high]. *)
Theorem metrics_stay_in_the_selected_range (data view : DataFrame) (pollutant_col : string)
    (low high : Z) (countries : list cell) :
  filtered data pollutant_col low high countries = Ok view →
  rows view ≠ [] →
  ∃ mean lo hi, get_stats view pollutant_col = Ok (Some mean, Num lo, Num hi)
    ∧ low ≤ lo ∧ lo ≤ hi ∧ hi ≤ high.
Proof.
  intros Hf Hne. destruct (filtered_values _ _ _ _ _ _ Hf) as [i [Hi Hrange]].
  destruct (filtered_view_numeric _ _ _ _ Hrange) as [Hnum Hall].
  rewrite (get_stats_numeric _ _ i Hi Hnum). fold (column_values i (rows view)).
  destruct (rows view) as [|r0 t0] eqn:Er; [done|]. rewrite <- Er in *.
  assert (r0 ∈ rows view) as Hr0 by (rewrite Er; by left).
  destruct (Hrange r0 Hr0) as [z0 [Hz0 _]].
  destruct (numbers_nonempty i _ r0 z0 Hr0 Hz0) as [x [t Hx]].
  fold (column_values i (rows view)) in Hx.
  destruct (foldr_min_spec x t) as [Hmin Hle].
  destruct (foldr_max_spec x t) as [Hmax Hge].
  rewrite Hx in *. cbn [min_list max_list].
  eexists _, _, _. split; [reflexivity|].
  pose proof (proj1 (Forall_forall _ _) Hall _ Hmin) as Hlo.
  pose proof (proj1 (Forall_forall _ _) Hall _ Hmax) as Hhi.
  pose proof (proj1 (Forall_forall _ _) Hle _ Hmax) as Hmm.
  cbn beta in *. lia.
Qed.

Lemma metrics_stay_in_the_selected_range_witness :
  ∃ mean lo hi,
    get_stats (Frame Sample.header [Sample.record 1 "B" "US" 150 "Unhealthy"]) "AQI Value"
      = Ok (Some mean, Num lo, Num hi)
    ∧ 60 ≤ lo ∧ lo ≤ hi ∧ hi ≤ 200.
Proof.
  apply (metrics_stay_in_the_selected_range Sample.data _ "AQI Value" 60 200 [Str "US"]).
  - reflexivity.
  - discriminate.
Defined.

(** ** The first bar of the chart *)

(** X6: on a numeric column with at least one number, the first row that
    [nlargest] returns (for any positive [n]) holds the very number that
    [get_stats] reports as the maximum. *)
Theorem nlargest_starts_with_the_maximum (n : nat) (view : DataFrame) (col : string)
    (i : nat) (r0 : row) (z0 : Z) :
  col_index col (columns view) = Some i →
  numeric_col i (rows view) →
  r0 ∈ rows view → cell_at i r0 = Num z0 →
  ∃ top rest hi mean lo,
    nlargest (S n) view col = Ok (Frame (columns view) (top :: rest))
    ∧ top ∈ rows view
    ∧ cell_at i top = Num hi
    ∧ get_stats view col = Ok (mean, lo, Num hi).
Proof.
  intros Hi Hnum Hr0 Hz0.
  rewrite (nlargest_numeric _ _ _ i Hi Hnum), (get_stats_numeric _ _ i Hi Hnum).
  fold (column_values i (rows view)).
  set (before := λ r1 r2, desc (cell_at i r1) (cell_at i r2)).
  pose proof (stable_sort_perm before (rows view)) as Hperm.
  assert (StronglySorted (λ a b, before a b = true) (stable_sort before (rows view))) as Hs.
  { apply stable_sort_sorted.
    - intros x y. apply desc_total.
    - intros x y z. apply desc_trans. }
  destruct (stable_sort before (rows view)) as [|top rest] eqn:Es.
  { rewrite <- Hperm in Hr0. by apply elem_of_nil in Hr0. }
  apply StronglySorted_inv in Hs as [_ Htop].
  assert (top ∈ rows view) as Htin by (rewrite <- Hperm; by left).
  assert (∀ r z, r ∈ rows view → cell_at i r = Num z →
                 ∃ h, cell_at i top = Num h ∧ z ≤ h) as Hmax.
  { intros r z Hr Hz. rewrite <- Hperm in Hr.
    apply elem_of_cons in Hr as [->|Hr].
    - exists z. split; [done|lia].
    - apply (desc_from_number _ z (Hnum top Htin)).
      rewrite <- Hz. by eapply Forall_forall in Htop. }
  destruct (Hmax r0 z0 Hr0 Hz0) as [h [Hh _]].
  destruct (numbers_nonempty i _ r0 z0 Hr0 Hz0) as [x [t Hx]].
  fold (column_values i (rows view)) in Hx.
  destruct (foldr_max_spec x t) as [Hin Hge]. rewrite <- Hx in Hin, Hge.
  assert (foldr Z.max x t = h) as Heq.
  { apply elem_of_column_values in Hin as [r [Hr Hz]].
    destruct (Hmax r _ Hr Hz) as [h' [Hh' Hle]]. rewrite Hh in Hh'. injection Hh' as <-.
    assert (h ∈ column_values i (rows view)) as Hhv.
    { apply elem_of_column_values. by exists top. }
    pose proof (proj1 (Forall_forall _ _) Hge _ Hhv). cbn beta in *. lia. }
  rewrite Hx. cbn [max_list take]. rewrite Heq.
  by eexists top, _, h, _, _.
Qed.

Lemma nlargest_starts_with_the_maximum_witness :
  ∃ top rest hi mean lo,
    nlargest 10 Sample.data "AQI Value" = Ok (Frame (columns Sample.data) (top :: rest))
    ∧ top ∈ rows Sample.data
    ∧ cell_at 4 top = Num hi
    ∧ get_stats Sample.data "AQI Value" = Ok (mean, lo, Num hi).
Proof.
  apply (nlargest_starts_with_the_maximum 9 Sample.data "AQI Value" 4
           (Sample.record 0 "A" "US" 50 "Good") 50).
  - reflexivity.
  - exact sample_aqi_numeric.
  - by left.
  - reflexivity.
Defined.

(** ** The category counts *)

Lemma count_row_ok (df : DataFrame) (i : nat) (m : gmap cell nat) (r : row) :
  col_index "AQI Category" (columns df) = Some i →
  count_row df (Ok m) r
  = Ok (<[cell_at i r := (default 0%nat (m !! cell_at i r) + 1)%nat]> m).
Proof. intros Hi. unfold count_row, column_of. by rewrite Hi. Qed.

Lemma count_rows_from (df : DataFrame) (i : nat) (rs : list row) (m0 : gmap cell nat) :
  col_index "AQI Category" (columns df) = Some i →
  ∃ m, foldl (count_row df) (Ok m0) rs = Ok m
    ∧ ∀ c, m !! c = match length (group_rows i c rs) with
                    | O => m0 !! c
                    | S k => Some (default 0%nat (m0 !! c) + S k)%nat
                    end.
Proof.
  intros Hi. revert m0. induction rs as [|r t IH]; intros m0.
  - exists m0. by split.
  - cbn [foldl]. rewrite (count_row_ok _ i) by done.
    destruct (IH (<[cell_at i r := (default 0%nat (m0 !! cell_at i r) + 1)%nat]> m0))
      as [m [Hm Hc]].
    exists m. split; [done|]. intros c. rewrite Hc. unfold group_rows. cbn [List.filter].
    destruct (decide (cell_at i r = c)) as [->|Hne].
    + rewrite bool_decide_eq_true_2 by done. cbn [length].
      rewrite lookup_insert_eq. cbn.
      destruct (length _); f_equal; lia.
    + rewrite bool_decide_eq_false_2 by done. by rewrite lookup_insert_ne.
Qed.

(** X8: on a view with the category column the counting loop returns a
    dictionary that gives each category the number of rows that hold it,
    and has no entry for a category that no row holds (rows without a
    category are left aside here). *)
Theorem cat_counts_counts_the_rows (view : DataFrame) (i : nat) :
  col_index "AQI Category" (columns view) = Some i →
  ∃ counts, cat_counts view = Ok counts
    ∧ ∀ c n, c ≠ NaN →
             (counts !! c = Some n
              ↔ (0 < n)%nat ∧ n = length (group_rows i c (rows view))).
Proof.
  intros Hi. destruct (count_rows_from view i (rows view) ∅ Hi) as [m [Hm Hc]].
  exists m. split; [done|]. intros c n _. rewrite Hc, lookup_empty. cbn.
  destruct (length (group_rows i c (rows view))) as [|k].
  - split; [done|]. intros [? ->]. lia.
  - split; [intros [= <-]; split; lia | by intros [_ ->]].
Qed.

Lemma cat_counts_counts_the_rows_witness :
  ∃ counts, cat_counts Sample.data = Ok counts
    ∧ ∀ c n, c ≠ NaN →
             (counts !! c = Some n
              ↔ (0 < n)%nat ∧ n = length (group_rows 9 c (rows Sample.data))).
Proof. apply (cat_counts_counts_the_rows Sample.data 9). reflexivity. Defined.

Lemma count_rows_raised (df : DataFrame) (e : exn) (rs : list row) :
  foldl (count_row df) (Raise e) rs = Raise e.
Proof. induction rs as [|r t IH]; [done|]. exact IH. Qed.

(** X9: on a view without the category column the counting loop raises
    [KeyError] at its first row; only a view without rows gets past it. *)
Theorem cat_counts_needs_the_category_column (view : DataFrame) :
  col_index "AQI Category" (columns view) = None →
  rows view ≠ [] →
  cat_counts view = Raise (KeyError ["AQI Category"]).
Proof.
  intros Hi Hne. unfold cat_counts. destruct (rows view) as [|r t]; [done|].
  cbn [foldl]. unfold count_row at 2, column_of. rewrite Hi. cbn.
  apply count_rows_raised.
Qed.

Lemma cat_counts_needs_the_category_column_witness :
  cat_counts Sample.no_category = Raise (KeyError ["AQI Category"]).
Proof.
  apply (cat_counts_needs_the_category_column Sample.no_category).
  - reflexivity.
  - discriminate.
Defined.

(** ** The options of the selectors *)

Lemma unique_sublist (l : list cell) : unique l `sublist_of` l.
Proof.
  induction l as [|c t IH]; [done|]. cbn. apply sublist_skip.
  etrans; [apply sublist_filter_bool | exact IH].
Qed.

(** X10: the country selector offers each value of the [Country] column
    once, in the order of the rows, the missing marker included when a row
    has no country. *)
Theorem country_options_list_each_value_once (data : DataFrame) (c : nat) :
  col_index "Country" (columns data) = Some c →
  ∃ s, series data "Country" = Ok s
    ∧ NoDup (unique s)
    ∧ unique s `sublist_of` s
    ∧ ∀ r, r ∈ rows data → cell_at c r ∈ unique s.
Proof.
  intros Hc. eexists. split; [by apply series_at|].
  split; [apply NoDup_unique|]. split; [apply unique_sublist|].
  intros r Hr. apply elem_of_unique, list_elem_of_fmap. by exists r.
Qed.

Lemma country_options_list_each_value_once_witness :
  ∃ s, series Sample.data "Country" = Ok s
    ∧ NoDup (unique s)
    ∧ unique s `sublist_of` s
    ∧ ∀ r, r ∈ rows Sample.data → cell_at 1 r ∈ unique s.
Proof. apply (country_options_list_each_value_once Sample.data 1). reflexivity. Defined.

Lemma forallb_text (l : list cell) :
  (∀ c, c ∈ l → is_text c = true) → forallb is_text l = true.
Proof.
  intros H. apply forallb_forall. intros c Hc%list_elem_of_In. by apply H.
Qed.

Lemma sorted_present_text (s : list cell) :
  (∀ c, c ∈ s → is_text c = true ∨ c = NaN) →
  sorted_present s = Ok (stable_sort cell_leb (unique (List.filter notna s))).
Proof.
  intros H. unfold sorted_present. rewrite forallb_text; [by rewrite andb_false_r|].
  intros c [Hc Hn]%elem_of_unique%elem_of_filter_bool.
  destruct (H c Hc) as [?| ->]; done.
Qed.

(** X11: for a column of texts the options of the city selector and of
    the category selector are the texts of the column, each once, in
    strictly ascending order, without the missing marker. *)
Theorem sorted_options_are_the_present_texts (s : list cell) :
  (∀ c, c ∈ s → is_text c = true ∨ c = NaN) →
  ∃ options, sorted_present s = Ok options
    ∧ StronglySorted (λ a b, cell_compare a b = Lt) options
    ∧ ∀ c, c ∈ options ↔ c ∈ s ∧ c ≠ NaN.
Proof.
  intros H. eexists. split; [by apply sorted_present_text|]. split.
  - apply StronglySorted_NoDup_strict.
    + apply stable_sort_sorted; [apply cell_leb_total | apply cell_leb_trans].
    + rewrite stable_sort_perm. apply NoDup_unique.
  - intros c. rewrite stable_sort_perm, elem_of_unique, elem_of_filter_bool.
    split; intros [Hc Hn]; (split; [done|]); by destruct c.
Qed.

Lemma sorted_options_are_the_present_texts_witness :
  ∃ options, sorted_present [Str "B"; NaN; Str "A"; Str "B"] = Ok options
    ∧ StronglySorted (λ a b, cell_compare a b = Lt) options
    ∧ ∀ c, c ∈ options ↔ c ∈ [Str "B"; NaN; Str "A"; Str "B"] ∧ c ≠ NaN.
Proof.
  apply (sorted_options_are_the_present_texts [Str "B"; NaN; Str "A"; Str "B"]).
  intros c Hc. rewrite !elem_of_cons in Hc.
  destruct Hc as [->|[->|[->|[->|Hc]]]];
    [by left | by right | by left | by left | by apply elem_of_nil in Hc].
Defined.

(** X12: the category selector starts with all its options selected.
    With that selection the map view keeps the rows that have a category
    and drops the rows whose category is missing; when no row has a
    category the selection is empty and the map view keeps every row. *)
Theorem default_categories_drop_rows_without_category (data : DataFrame) (ca : nat) :
  col_index "AQI Category" (columns data) = Some ca →
  text_col ca (rows data) →
  ∃ aqi_categories,
    sorted_present (cell_at ca <$> rows data) = Ok aqi_categories
    ∧ (aqi_categories ≠ [] →
       filtered_data data [] aqi_categories
       = Ok (Frame (columns data) (List.filter (λ r, notna (cell_at ca r)) (rows data))))
    ∧ (aqi_categories = [] →
       filtered_data data [] aqi_categories = Ok data
       ∧ ∀ r, r ∈ rows data → cell_at ca r = NaN).
Proof.
  intros Hca Htext.
  assert (∀ c, c ∈ cell_at ca <$> rows data → is_text c = true ∨ c = NaN) as Hs.
  { intros c [r [-> Hr]]%list_elem_of_fmap. by apply Htext. }
  eexists. split; [by apply sorted_present_text|].
  set (cats := stable_sort cell_leb (unique (List.filter notna (cell_at ca <$> rows data)))).
  assert (∀ r, r ∈ rows data → selected cats (cell_at ca r) = notna (cell_at ca r)) as Hsel.
  { intros r Hr. unfold selected, cats. apply eq_true_iff_eq.
    rewrite bool_decide_eq_true, stable_sort_perm, elem_of_unique, elem_of_filter_bool.
    split; [by intros [_ ?]|]. intros Hn. split; [|done].
    apply list_elem_of_fmap. by exists r. }
  split.
  - intros Hne. unfold filtered_data. cbn [truthy]. cbn.
    destruct cats as [|k t] eqn:Ek; [done|]. cbn [truthy]. rewrite <- Ek in *.
    rewrite (filter_isin_rows _ _ _ ca) by done. do 2 f_equal.
    by apply filter_ext_in.
  - intros Hnil. split; [by rewrite Hnil|].
    intros r Hr. specialize (Hsel r Hr). rewrite Hnil in Hsel.
    unfold selected in Hsel. rewrite bool_decide_eq_false_2 in Hsel by apply not_elem_of_nil.
    by destruct (cell_at ca r).
Qed.

Lemma sample_category_text : text_col 9 (rows Sample.data).
Proof.
  intros r Hr. cbn in Hr. set_unfold. destruct Hr as [->|[->|[->|[]]]]; by left.
Qed.

Lemma default_categories_drop_rows_without_category_witness :
  ∃ aqi_categories,
    sorted_present (cell_at 9 <$> rows Sample.data) = Ok aqi_categories
    ∧ (aqi_categories ≠ [] →
       filtered_data Sample.data [] aqi_categories
       = Ok (Frame (columns Sample.data)
               (List.filter (λ r, notna (cell_at 9 r)) (rows Sample.data))))
    ∧ (aqi_categories = [] →
       filtered_data Sample.data [] aqi_categories = Ok Sample.data
       ∧ ∀ r, r ∈ rows Sample.data → cell_at 9 r = NaN).
Proof.
  apply (default_categories_drop_rows_without_category Sample.data 9).
  - reflexivity.
  - exact sample_category_text.
Defined.

(** ** The codes of the encoder *)

(** X13: a code that the encoder gives is one of 1 to 6, and it gives
    the same code to no two category texts, so a text can be read back
    from its code. *)
Theorem encode_codes_are_distinct :
  (∀ c, encode c = NaN ∨ ∃ n, encode c = Num n ∧ 1 ≤ n ≤ 6)
  ∧ (∀ s t n, encode (Str s) = Num n → encode (Str t) = Num n → s = t).
Proof.
  assert (∀ s n, encode (Str s) = Num n → (s, n) ∈@{list (string * Z)}
            [("Good", 1); ("Moderate", 2); ("Unhealthy for Sensitive Groups", 3);
             ("Unhealthy", 4); ("Very Unhealthy", 5); ("Hazardous", 6)]) as Hin.
  { intros s n. unfold encode, category_map.
    destruct (list_to_map _ !! s) as [k|] eqn:E; [|done].
    intros [= <-]. by apply elem_of_list_to_map_2 in E. }
  split.
  - intros [z|s|]; [by left| |by left].
    destruct (encode (Str s)) as [n|s'|] eqn:E;
      [|exfalso; unfold encode in E; by destruct (category_map !! s) | by left].
    right. exists n. split; [done|].
    apply Hin in E. rewrite !elem_of_cons in E.
    destruct E as [E|[E|[E|[E|[E|[E|E]]]]]];
      [| | | | | |by apply elem_of_nil in E]; injection E as _ ->; lia.
  - intros s t n Hs%Hin Ht%Hin. rewrite !elem_of_cons in Hs, Ht.
    destruct Hs as [E|[E|[E|[E|[E|[E|E]]]]]];
      [| | | | | |by apply elem_of_nil in E]; injection E as -> ->;
      (destruct Ht as [E|[E|[E|[E|[E|[E|E]]]]]];
        [| | | | | |by apply elem_of_nil in E]; by injection E as ->).
Qed.

(** ** Trimmed headers and clean tables *)

Lemma strip_id (t : string) : trimmed t → strip t = t.
Proof.
  intros [H1 H2]. unfold strip, lstrip, rstrip_reversed.
  rewrite (strip_front_id _ _ _ H1), (strip_front_id _ _ _ H2), rev_involutive.
  apply string_of_list_ascii_of_string.
Qed.

(** X14: [strip] leaves a text unchanged exactly when the text neither
    starts nor ends with a white space (of ASCII or beyond); hence
    stripping twice is stripping once. *)
Theorem strip_fixes_the_trimmed_texts (s : string) :
  (strip s = s ↔ trimmed s) ∧ strip (strip s) = strip s.
Proof.
  split; [split|].
  - intros <-. apply strip_trimmed.
  - apply strip_id.
  - apply strip_id, strip_trimmed.
Qed.

Lemma strip_columns_id (cols : list string) :
  Forall trimmed cols → strip <$> cols = cols.
Proof.
  induction 1 as [|c t Hc _ IH]; [done|]. cbn. f_equal; [by apply strip_id | exact IH].
Qed.

Lemma drop_dups_distinct (seen : list (list cell)) (rs : list row) :
  NoDup (cells <$> rs) → (∀ r, r ∈ rs → cells r ∉ seen) → drop_dups seen rs = rs.
Proof.
  revert seen. induction rs as [|r t IH]; intros seen Hnd Hseen; [done|].
  cbn in Hnd. apply NoDup_cons in Hnd as [Hr Hnd]. cbn.
  rewrite bool_decide_eq_false_2 by (apply Hseen; by left).
  f_equal. apply IH; [done|]. intros x Hx [Heq|Hin]%elem_of_cons.
  - apply Hr. rewrite <- Heq. apply list_elem_of_fmap. by exists x.
  - apply (Hseen x); [by right|done].
Qed.

(** X15: a parsed table that is already clean comes out of the loader as
    it went in: rows of distinct content, all with both coordinates, under
    trimmed headers. *)
Theorem load_data_keeps_a_clean_table (read_csv : string → string + DataFrame)
    (filepath : string) (df : DataFrame) (ilat ilng : nat) (log : list event) :
  read_csv filepath = inr df →
  col_index "lat" (columns df) = Some ilat →
  col_index "lng" (columns df) = Some ilng →
  NoDup (cells <$> rows df) →
  (∀ r, r ∈ rows df → cell_at ilat r ≠ NaN ∧ cell_at ilng r ≠ NaN) →
  Forall trimmed (columns df) →
  load_data read_csv filepath log = (log, Ok df).
Proof.
  intros Hdf Hlat Hlng Hnd Hgeo Htrim. unfold load_data. rewrite Hdf.
  rewrite (dropna_lat_lng (drop_duplicates df) ilat ilng) by done.
  unfold lift, mbind, script_bind, mret, script_ret, strip_columns. cbn.
  destruct df as [cols rs]. cbn in *. do 3 f_equal.
  - by apply strip_columns_id.
  - rewrite drop_dups_distinct; [|done|intros r _; apply not_elem_of_nil].
    apply filter_all. intros r Hr. destruct (Hgeo r Hr) as [H1 H2].
    by destruct (cell_at ilat r), (cell_at ilng r).
Qed.

Lemma sample_coordinates :
  ∀ r, r ∈ rows Sample.data → cell_at 2 r ≠ NaN ∧ cell_at 3 r ≠ NaN.
Proof. intros r Hr. cbn in Hr. set_unfold. by destruct Hr as [->|[->|[->|[]]]]. Qed.

Lemma sample_header_trimmed : Forall trimmed (columns Sample.data).
Proof. repeat (apply Forall_cons_2; [split; reflexivity|]). apply Forall_nil_2. Qed.

Lemma load_data_keeps_a_clean_table_witness :
  load_data (λ _, inr Sample.data) "air_quality_index.csv" [] = ([], Ok Sample.data).
Proof.
  apply (load_data_keeps_a_clean_table (λ _, inr Sample.data) "air_quality_index.csv"
           Sample.data 2 3 []).
  - reflexivity.
  - reflexivity.
  - reflexivity.
  - by_evaluation.
  - exact sample_coordinates.
  - exact sample_header_trimmed.
Defined.

(** ** A file that cannot be read *)

(** X16: when the file cannot be parsed, the run shows two errors, the
    failure of the parser and then the five pollutant columns as missing,
    and stops there, whoever the visitor is. *)
Theorem unreadable_file_stops_the_run (read_csv : string → string + DataFrame)
    (ui : widgets) (e : string) :
  read_csv "air_quality_index.csv" = inl e →
  run read_csv ui
  = ([StError (ErrorLoadingData e); StError (MissingExpectedColumns required_cols)],
     Raise StopException).
Proof.
  intros He. unfold run, main.
  assert (load_data read_csv "air_quality_index.csv" []
          = ([StError (ErrorLoadingData e)], Ok empty_frame)) as Hload.
  { unfold load_data. by rewrite He. }
  rewrite (bind_ok _ _ _ _ _ Hload).
  assert (missing_cols empty_frame = required_cols) as Hm by reflexivity.
  erewrite bind_raise; [reflexivity|].
  rewrite validate_missing; [by rewrite Hm | by rewrite Hm].
Qed.

Lemma unreadable_file_stops_the_run_witness :
  run (λ _, inl "No such file") (Sample.visitor [])
  = ([StError (ErrorLoadingData "No such file");
      StError (MissingExpectedColumns required_cols)],
     Raise StopException).
Proof.
  apply (unreadable_file_stops_the_run (λ _, inl "No such file") (Sample.visitor [])).
  reflexivity.
Defined.

(** ** The selector and the column check *)

Lemma filter_nil_intro {A : Type} (p : A → bool) (l : list A) :
  (∀ x, x ∈ l → p x = false) → List.filter p l = [].
Proof.
  intros H. rewrite (filter_ext_in p (λ _, false)); [apply filter_none | exact H].
Qed.

(** X17: the column check passes exactly when the column of every
    pollutant the selector offers can be taken from the table; the five
    names of the check are the five columns of the selector. *)
Theorem column_check_guards_the_selector (data : DataFrame) :
  missing_cols data = []
  ↔ ∀ pl, ∃ s, series data (pollutant_dict pl) = Ok s.
Proof.
  split.
  - intros Hm pl. destruct (validated_pollutant data pl Hm) as [i Hi].
    eexists. by apply series_at.
  - intros H. unfold missing_cols. apply filter_nil_intro. intros c Hc.
    apply bool_decide_eq_false. intros Habs. apply Habs. clear Habs.
    assert (∃ pl, c = pollutant_dict pl) as [pl ->].
    { unfold required_cols in Hc. rewrite !elem_of_cons in Hc.
      destruct Hc as [->|[->|[->|[->|[->|Hc]]]]];
        [by exists OverallAQI | by exists CarbonMonoxide | by exists Ozone
        | by exists NitrogenDioxide | by exists PM25 | by apply elem_of_nil in Hc]. }
    destruct (H pl) as [s Hs]. unfold series, column_of in Hs.
    destruct (col_index (pollutant_dict pl) (columns data)) as [i|] eqn:Ei; [|done].
    by eapply col_index_elem.
Qed.

(** ** A selection that is not a text *)

Lemma join_texts_refuses (l : list cell) (c : cell) :
  c ∈ l → is_text c = false → join_texts l = Raise TypeError.
Proof.
  intros Hc Ht. induction l as [|x t IH]; [by apply elem_of_nil in Hc|].
  unfold join_texts in *. cbn. apply elem_of_cons in Hc as [<-|Hc].
  - by destruct c.
  - destruct x as [z|s|]; try done. cbn. by rewrite IH.
Qed.

(** X18: when the selected countries hold something that is not a text
    (the missing marker is among the options when a row has no country),
    the selection line cannot be put together: the page shows the title
    and the step raises [TypeError] before the table and the metrics. *)
Theorem selection_line_needs_texts (pl : pollutant_label) (lo hi : Z)
    (countries : list cell) (view : DataFrame) (log : list event) (c : cell) :
  c ∈ countries → is_text c = false →
  table_and_metrics pl lo hi countries view log
  = ((log ++ [StTitle])%list, Raise TypeError).
Proof.
  intros Hc Ht. unfold table_and_metrics. rewrite bind_emit.
  unfold mbind at 1. unfold script_bind, lift.
  by rewrite (join_texts_refuses _ _ Hc Ht).
Qed.

Lemma selection_line_needs_texts_witness :
  table_and_metrics OverallAQI 50 150 [Str "US"; NaN] Sample.data []
  = (([] ++ [StTitle])%list, Raise TypeError).
Proof.
  apply (selection_line_needs_texts OverallAQI 50 150 [Str "US"; NaN] Sample.data [] NaN).
  - right. by left.
  - reflexivity.
Defined.

(** ** The list of index columns *)

Lemma prefix_cons (a b : ascii) (s1 s2 : string) :
  String.prefix (String a s1) (String b s2)
  = if ascii_dec a b then String.prefix s1 s2 else false.
Proof. reflexivity. Qed.

Lemma prefix_append (s1 s2 : string) :
  String.prefix s1 s2 = true ↔ ∃ q, s2 = String.append s1 q.
Proof.
  revert s2. induction s1 as [|a s1 IH]; intros s2.
  - destruct s2; (split; [intros _; by eexists | done]).
  - destruct s2 as [|b s2]; [split; [done | by intros [q ?]]|].
    rewrite prefix_cons. destruct (ascii_dec a b) as [->|Hne].
    + rewrite IH. split; intros [q Hq]; exists q; [by rewrite Hq | by injection Hq].
    + split; [done|]. intros [q Hq]. by injection Hq as <- _.
Qed.

Lemma index_some_append (a : ascii) (s1 s2 : string) :
  is_Some (String.index 0 (String a s1) s2)
  ↔ ∃ p q, s2 = String.append p (String.append (String a s1) q).
Proof.
  induction s2 as [|b s2 IH].
  - cbn. split; [by intros [? ?]|]. intros [[|? ?] [q Hq]]; discriminate.
  - cbn [String.index]. destruct (String.prefix (String a s1) (String b s2)) eqn:Ep.
    + split; [|by eexists]. intros _. apply prefix_append in Ep as [q Hq].
      by exists EmptyString, q.
    + split.
      * intros Hs. assert (is_Some (String.index 0 (String a s1) s2)) as Hs'.
        { by destruct (String.index 0 (String a s1) s2). }
        apply IH in Hs' as [p [q ->]]. by exists (String b p), q.
      * intros [[|c p] [q Hq]].
        -- assert (String.prefix (String a s1) (String b s2) = true) as Ht;
             [|by rewrite Ht in Ep].
           apply prefix_append. by exists q.
        -- injection Hq as _ Hq.
           assert (is_Some (String.index 0 (String a s1) s2)) as [n ->]; [|by eexists].
           apply IH. by exists p, q.
Qed.

(** X19: the list of index columns holds, in the order of the table, the
    columns whose name has the letters AQI in it, in capitals; it passes
    over no such column and takes no other. *)
Theorem aqi_columns_are_the_names_with_AQI (data : DataFrame) :
  List.filter contains_AQI (columns data) `sublist_of` columns data
  ∧ ∀ c, c ∈ List.filter contains_AQI (columns data)
         ↔ c ∈ columns data
           ∧ ∃ p q, c = String.append p (String.append "AQI" q).
Proof.
  split; [apply sublist_filter_bool|]. intros c. rewrite elem_of_filter_bool.
  assert (contains_AQI c = true ↔ ∃ p q, c = String.append p (String.append "AQI" q)) as H.
  { rewrite <- index_some_append. unfold contains_AQI.
    destruct (String.index 0 "AQI" c) as [n|].
    - split; [intros _; by eexists | done].
    - split; [done | by intros [? ?]]. }
  by rewrite H.
Qed.

(** ** Views are cuts of the data set *)

(** X20: both views have the columns of the data set, and their rows are
    rows of the data set in their original order: filtering selects, it
    neither reorders nor changes a row. *)
Theorem views_are_ordered_selections (data : DataFrame) (pollutant_col : string)
    (low high : Z) (countries cities categories : list cell) (i c ci ca : nat) :
  col_index pollutant_col (columns data) = Some i →
  numeric_col i (rows data) →
  col_index "Country" (columns data) = Some c →
  col_index "City" (columns data) = Some ci →
  col_index "AQI Category" (columns data) = Some ca →
  (∃ view, filtered data pollutant_col low high countries = Ok view
     ∧ columns view = columns data ∧ rows view `sublist_of` rows data)
  ∧ (∃ view, filtered_data data cities categories = Ok view
     ∧ columns view = columns data ∧ rows view `sublist_of` rows data).
Proof.
  intros Hi Hnum Hc Hci Hca. split.
  - eexists. split; [by apply (filtered_rows _ _ _ _ _ i c)|]. cbn.
    split; [done | apply sublist_filter_bool].
  - eexists. split; [by apply (filtered_data_rows _ _ _ ci ca)|]. cbn.
    split; [done | apply sublist_filter_bool].
Qed.

Lemma views_are_ordered_selections_witness :
  (∃ view, filtered Sample.data "AQI Value" 60 200 [Str "US"] = Ok view
     ∧ columns view = columns Sample.data ∧ rows view `sublist_of` rows Sample.data)
  ∧ (∃ view, filtered_data Sample.data [Str "A"] [Str "Good"] = Ok view
     ∧ columns view = columns Sample.data ∧ rows view `sublist_of` rows Sample.data).
Proof.
  apply (views_are_ordered_selections Sample.data "AQI Value" 60 200
           [Str "US"] [Str "A"] [Str "Good"] 4 1 0 9).
  - reflexivity.
  - exact sample_aqi_numeric.
  - reflexivity.
  - reflexivity.
  - reflexivity.
Defined.

(** ** Fewer rows than bars *)

(** X21: when the view has at most [n] rows, [nlargest n] returns all of
    them, reordered; the bar chart of a short table view leaves no city
    out. *)
Theorem nlargest_returns_a_short_view_whole (n : nat) (view : DataFrame) (col : string)
    (i : nat) :
  col_index col (columns view) = Some i →
  numeric_col i (rows view) →
  (length (rows view) ≤ n)%nat →
  ∃ out, nlargest n view col = Ok out ∧ rows out ≡ₚ rows view.
Proof.
  intros Hi Hnum Hlen. eexists. split; [by apply nlargest_numeric|]. cbn.
  rewrite take_ge by (by rewrite stable_sort_length). apply stable_sort_perm.
Qed.

Lemma nlargest_returns_a_short_view_whole_witness :
  ∃ out, nlargest 10 Sample.data "AQI Value" = Ok out ∧ rows out ≡ₚ rows Sample.data.
Proof.
  apply (nlargest_returns_a_short_view_whole 10 Sample.data "AQI Value" 4).
  - reflexivity.
  - exact sample_aqi_numeric.
  - cbn. lia.
Defined.

(** ** When the range filter refuses *)

Lemma traverse_ge_text (k : Z) (s : list cell) (c : cell) :
  c ∈ s → is_text c = true → traverse (ge_scalar k) s = Raise TypeError.
Proof.
  intros Hc Ht. induction s as [|x t IH]; [by apply elem_of_nil in Hc|].
  cbn. apply elem_of_cons in Hc as [<-|Hc].
  - by destruct c.
  - destruct x as [z|s'|]; cbn; [by rewrite IH | done | by rewrite IH].
Qed.

(** X22: the range filter returns only for a column that is there and
    holds no text: it raises [KeyError] with the name of an absent column,
    and [TypeError] when a cell of the column is a text. *)
Theorem filter_data_refuses (df : DataFrame) (pollutant : string) (low high : Z) :
  (col_index pollutant (columns df) = None →
   filter_data df pollutant low high = Raise (KeyError [pollutant]))
  ∧ (∀ i r, col_index pollutant (columns df) = Some i →
       r ∈ rows df → is_text (cell_at i r) = true →
       filter_data df pollutant low high = Raise TypeError)
  ∧ (∀ out, filter_data df pollutant low high = Ok out →
       ∃ i, col_index pollutant (columns df) = Some i ∧ numeric_col i (rows df)).
Proof.
  split; [|split].
  - intros Hi. unfold filter_data, series, column_of. by rewrite Hi.
  - intros i r Hi Hr Ht. unfold filter_data. rewrite (series_at _ _ _ Hi). cbn.
    rewrite (traverse_ge_text low _ (cell_at i r)); [done| |done].
    apply list_elem_of_fmap. by exists r.
  - intros out. apply filter_data_ok_inv.
Qed.

Lemma filter_data_refuses_witness :
  filter_data Sample.data "PM10 AQI Value" 0 100 = Raise (KeyError ["PM10 AQI Value"])
  ∧ filter_data Sample.data "City" 0 100 = Raise TypeError.
Proof.
  split.
  - apply (proj1 (filter_data_refuses Sample.data "PM10 AQI Value" 0 100)). reflexivity.
  - apply (proj1 (proj2 (filter_data_refuses Sample.data "City" 0 100))
             0%nat (Sample.record 0 "A" "US" 50 "Good")).
    + reflexivity.
    + by left.
    + reflexivity.
Defined.
